(** * todo-list-vibe: the REST handlers of [backend/server.js] and the
      list filter of [frontend/app.js], embedded and verified.

    The table [todos] is a finite map from the primary key [id] to the
    remaining columns; every SQL statement of [server.js] is a function on
    that map.  Each handler is the body of its [try] block, written in a
    small state-and-exception monad, wrapped by the [catch] clause that
    answers 500. *)

From Stdlib Require Import ZArith String Ascii List Lia.
From Stdlib Require DecimalString.
From stdpp Require Import base option list gmap sorting.

Local Open Scope string_scope.
Local Open Scope Z_scope.

(** ** JavaScript strings and [String.prototype.trim] *)

Module JsString.


(** Code units are modelled by one-byte characters; the white space and
    line terminators of ECMAScript that fit in one byte are TAB, LF, VT,
    FF, CR, SP and NBSP. *)
Definition is_whitespace (c : ascii) : bool :=
  let n := N_of_ascii c in
  ((9 <=? n) && (n <=? 13) || (n =? 32) || (n =? 160))%N.

Fixpoint trimStart (s : string) : string :=
  match s with
  | EmptyString => EmptyString
  | String c r => if is_whitespace c then trimStart r else s
  end.

Fixpoint trimEnd (s : string) : string :=
  match s with
  | EmptyString => EmptyString
  | String c r =>
      match trimEnd r with
      | EmptyString => if is_whitespace c then EmptyString else String c EmptyString
      | r' => String c r'
      end
  end.

Definition trim (s : string) : string := trimEnd (trimStart s).

(** [s === ''] *)
Definition is_empty (s : string) : bool :=
  match s with EmptyString => true | String _ _ => false end.

(** ['a'.repeat(n)], used to write long inputs. *)
Fixpoint repeat (c : ascii) (n : nat) : string :=
  match n with
  | O => EmptyString
  | S k => String c (repeat c k)
  end.

End JsString.

(** ** JavaScript values of a parsed JSON body *)

Module Js.
Import JsString.

(** What [express.json()] can put in a field of [req.body], plus
    [undefined] for a field that is absent.  Numbers are restricted to the
    integers: the handlers only test a number for truthiness.  Arrays and
    objects are one constructor: they are truthy and have no [trim]. *)
Inductive value : Type :=
| JUndefined
| JNull
| JBool (b : bool)
| JNumber (n : Z)
| JString (s : string)
| JObject.

(** ToBoolean, as used by [!v] and [v ? a : b]. *)
Definition truthy (v : value) : bool :=
  match v with
  | JUndefined | JNull => false
  | JBool b => b
  | JNumber n => negb (n =? 0)
  | JString s => negb (is_empty s)
  | JObject => true
  end.

(** [v !== undefined] *)
Definition defined (v : value) : bool :=
  match v with JUndefined => false | _ => true end.

(** What a [try] block can throw in this program. *)
Inductive exn : Type :=
| TypeError          (* a method call on a value that has no such method *)
| ER_DATA_TOO_LONG.  (* the driver rejects the promise of [conn.query] *)

End Js.

(** ** The table [todos] and the SQL statements of [server.js] *)

Module Db.
Import JsString Js.

(** Columns other than the primary key:
    [title VARCHAR(500) NOT NULL], [completed BOOLEAN DEFAULT FALSE]
    (a TINYINT), [created_at TIMESTAMP DEFAULT CURRENT_TIMESTAMP]
    (seconds; no ON UPDATE clause). *)
Record stored : Type := Stored {
  title : string;
  completed : Z;
  created_at : Z
}.

(** The table, keyed by [id INT AUTO_INCREMENT PRIMARY KEY], and the
    table's AUTO_INCREMENT counter.  Identifiers are unbounded integers;
    the exhaustion of the INT range is not modelled. *)
Record database : Type := Database {
  todos : gmap Z stored;
  auto_increment : Z
}.

(** A row of a result set. *)
Record row : Type := Row {
  row_id : Z;
  row_title : string;
  row_completed : Z;
  row_created_at : Z
}.

Definition row_of (kv : Z * stored) : row :=
  Row kv.1 (title kv.2) (completed kv.2) (created_at kv.2).

(** State and exceptions of a [try] block: the database persists across a
    throw (every statement is its own transaction). *)
Definition M (A : Type) : Type := database -> (exn + A) * database.

Definition ret {A} (a : A) : M A := fun db => (inr a, db).

Definition bind {A B} (m : M A) (k : A -> M B) : M B :=
  fun db =>
    match m db with
    | (inl e, db') => (inl e, db')
    | (inr a, db') => k a db'
    end.

Definition throw {A} (e : exn) : M A := fun db => (inl e, db).

Declare Scope try_scope.
Delimit Scope try_scope with try.
Notation "'let!' x ':=' m 'in' k" := (bind m (fun x => k))
  (at level 10, x name, m at level 100, k at level 200) : try_scope.

(** [VARCHAR(500)] *)
Definition title_max : nat := 500.

(** The connection sets no SQL mode, so the server's default applies; it
    is strict (STRICT_TRANS_TABLES): a value longer than its column is the
    error "Data too long for column", not a truncation. *)
Definition fits_title (s : string) : bool :=
  (String.length s <=? title_max)%nat.

(** [ORDER BY created_at DESC] *)
Definition created_at_desc (r1 r2 : row) : Prop :=
  row_created_at r2 <= row_created_at r1.

#[global] Instance created_at_desc_dec : RelDecision created_at_desc.
Proof. intros r1 r2. unfold created_at_desc. apply Z_le_dec. Defined.

(** [CREATE TABLE IF NOT EXISTS todos (...)]: [None] is a schema without
    the table. *)
Definition sql_create_table_if_not_exists (d : option database) : database :=
  match d with
  | Some db => db
  | None => Database ∅ 1
  end.

(** [SELECT id, title, completed, created_at FROM todos
     ORDER BY created_at DESC].  The query leaves the order of rows with
    equal [created_at] open; the sort picks one. *)
Definition sql_select_all : M (list row) :=
  fun db => (inr (merge_sort created_at_desc (row_of <$> map_to_list (todos db))), db).

(** [SELECT ... FROM todos WHERE id = ?] *)
Definition sql_select_by_id (id : Z) : M (list row) :=
  fun db =>
    (inr match todos db !! id with
         | Some s => [row_of (id, s)]
         | None => []
         end, db).

(** [INSERT INTO todos (title, completed) VALUES (?, FALSE)]; the result
    is [insertId]. *)
Definition sql_insert (t : string) (current_timestamp : Z) : M Z :=
  fun db =>
    if fits_title t then
      let id := auto_increment db in
      (inr id, Database (<[id := Stored t 0 current_timestamp]> (todos db)) (id + 1))
    else (inl ER_DATA_TOO_LONG, db).

(** One element of the SET clause with its bound value: the arrays
    [updates] and [values] of the PUT handler grow together. *)
Inductive assignment : Type :=
| SetTitle (t : string)
| SetCompleted (c : Z).

Definition assign (s : stored) (a : assignment) : stored :=
  match a with
  | SetTitle t => Stored t (completed s) (created_at s)
  | SetCompleted c => Stored (title s) c (created_at s)
  end.

Definition assignment_fits (a : assignment) : bool :=
  match a with
  | SetTitle t => fits_title t
  | SetCompleted _ => true
  end.

(** [UPDATE todos SET ... WHERE id = ?] *)
Definition sql_update (updates : list assignment) (id : Z) : M unit :=
  fun db =>
    match todos db !! id with
    | None => (inr tt, db)
    | Some s =>
        if forallb assignment_fits updates then
          (inr tt, Database (<[id := fold_left assign updates s]> (todos db))
                            (auto_increment db))
        else (inl ER_DATA_TOO_LONG, db)
    end.

(** [DELETE FROM todos WHERE id = ?]; the result is [affectedRows]. *)
Definition sql_delete (id : Z) : M Z :=
  fun db =>
    match todos db !! id with
    | None => (inr 0, db)
    | Some _ => (inr 1, Database (delete id (todos db)) (auto_increment db))
    end.

(** [SELECT 1] *)
Definition sql_select_1 : M unit := ret tt.

End Db.

(** ** The request handlers of [backend/server.js] *)

Module Server.
Import JsString Js Db.
Local Open Scope try_scope.

(** The todo object of a JSON response. *)
Record todo : Type := Todo {
  todo_id : Z;
  todo_title : string;
  todo_completed : bool;
  todo_created_at : Z
}.

Inductive payload : Type :=
| TodoList (l : list todo)
| TodoItem (t : todo)
| Error (error : string)
| Message (message : string)
| Health (status database : string).

(** [res.status(code).json(payload)]; [res.json(payload)] is status 200. *)
Record response : Type := Response {
  status : Z;
  json : payload
}.

(** The fields [const { title, completed } = req.body] reads. *)
Record body : Type := Body {
  body_title : value;
  body_completed : value
}.

(** The two clocks a request reads: the database's CURRENT_TIMESTAMP
    (seconds) and the server's [new Date()] (milliseconds). *)
Record clocks : Type := Clocks {
  current_timestamp : Z;
  date_now : Z
}.

(** [Boolean(row.completed)]; [Number(row.id)] is the identity on the
    integers. *)
Definition Boolean (c : Z) : bool := negb (c =? 0).

Definition todo_of_row (r : row) : todo :=
  Todo (row_id r) (row_title r) (Boolean (row_completed r)) (row_created_at r).

(** [v.trim()] *)
Definition js_trim (v : value) : M string :=
  match v with
  | JString s => ret (trim s)
  | _ => throw TypeError
  end.

(** [rows[0]] followed by a property access. *)
Definition first_row (rows : list row) : M row :=
  match rows with
  | r :: _ => ret r
  | [] => throw TypeError
  end.

(** [try { ... } catch (err) { res.status(500).json({ error }) }] *)
Definition try_catch (error : string) (block : M response)
  (db : database) : response * database :=
  match block db with
  | (inr res, db') => (res, db')
  | (inl _, db') => (Response 500 (Error error), db')
  end.

(** [async function initializeDatabase()] *)
Definition initializeDatabase (schema : option database) : database :=
  sql_create_table_if_not_exists schema.

(** [app.get('/api/todos')] *)
Definition get_todos_try : M response :=
  let! rows := sql_select_all in
  let todos := map todo_of_row rows in
  ret (Response 200 (TodoList todos)).

Definition get_todos : database -> response * database :=
  try_catch "Failed to fetch todos" get_todos_try.

(** [app.get('/api/todos/:id')] *)
Definition get_todo_try (id : Z) : M response :=
  let! rows := sql_select_by_id id in
  if (length rows =? 0)%nat then ret (Response 404 (Error "Todo not found"))
  else
    let! r := first_row rows in
    ret (Response 200 (TodoItem (todo_of_row r))).

Definition get_todo (id : Z) : database -> response * database :=
  try_catch "Failed to fetch todo" (get_todo_try id).

(** [app.post('/api/todos')] *)
Definition post_todos_try (clk : clocks) (b : body) : M response :=
  let title := body_title b in
  let! invalid :=
    (if negb (truthy title) then ret true
     else let! t := js_trim title in ret (is_empty t)) in
  if invalid then ret (Response 400 (Error "Title is required"))
  else
    let! value := js_trim title in
    let! insertId := sql_insert value (current_timestamp clk) in
    let! t := js_trim title in
    let newTodo := Todo insertId t false (date_now clk) in
    ret (Response 201 (TodoItem newTodo)).

Definition post_todos (clk : clocks) (b : body) : database -> response * database :=
  try_catch "Failed to create todo" (post_todos_try clk b).

(** The part of the PUT handler that builds the SET clause; [inl] is the
    response of an early [return]. *)
Definition build_updates (b : body) : M (response + list assignment) :=
  let title := body_title b in
  let completed := body_completed b in
  let updates : list assignment := [] in
  let! step :=
    (if defined title then
       let! t := js_trim title in
       if is_empty t then ret (inl (Response 400 (Error "Title cannot be empty")))
       else let! value := js_trim title in ret (inr (updates ++ [SetTitle value])%list)
     else ret (inr updates)) in
  match step with
  | inl res => ret (inl res)
  | inr updates =>
      let updates :=
        if defined completed
        then (updates ++ [SetCompleted (if truthy completed then 1 else 0)])%list
        else updates in
      if (length updates =? 0)%nat
      then ret (inl (Response 400 (Error "No fields to update")))
      else ret (inr updates)
  end.

(** [app.put('/api/todos/:id')] *)
Definition put_todo_try (id : Z) (b : body) : M response :=
  let! existing := sql_select_by_id id in
  if (length existing =? 0)%nat then ret (Response 404 (Error "Todo not found"))
  else
    let! built := build_updates b in
    match built with
    | inl res => ret res
    | inr updates =>
        let! _ := sql_update updates id in
        let! rows := sql_select_by_id id in
        let! r := first_row rows in
        ret (Response 200 (TodoItem (todo_of_row r)))
    end.

Definition put_todo (id : Z) (b : body) : database -> response * database :=
  try_catch "Failed to update todo" (put_todo_try id b).

(** [app.delete('/api/todos/:id')] *)
Definition delete_todo_try (id : Z) : M response :=
  let! affectedRows := sql_delete id in
  if affectedRows =? 0 then ret (Response 404 (Error "Todo not found"))
  else ret (Response 200 (Message "Todo deleted successfully")).

Definition delete_todo (id : Z) : database -> response * database :=
  try_catch "Failed to delete todo" (delete_todo_try id).

(** [app.get('/api/health')] *)
Definition get_health (db : database) : response * database :=
  match sql_select_1 db with
  | (inr _, db') => (Response 200 (Health "healthy" "connected"), db')
  | (inl _, db') => (Response 500 (Health "unhealthy" "disconnected"), db')
  end.

(** The routes.  The path parameter [:id] is taken as the integer it
    denotes. *)
Inductive request : Type :=
| GET_todos
| GET_todo (id : Z)
| POST_todos (clk : clocks) (b : body)
| PUT_todo (id : Z) (b : body)
| DELETE_todo (id : Z)
| GET_health.

Definition handle (req : request) : database -> response * database :=
  match req with
  | GET_todos => get_todos
  | GET_todo id => get_todo id
  | POST_todos clk b => post_todos clk b
  | PUT_todo id b => put_todo id b
  | DELETE_todo id => delete_todo id
  | GET_health => get_health
  end.

(** The states the running server can be in: the table as
    [initializeDatabase] creates it, then any sequence of requests. *)
Inductive reachable : database -> Prop :=
| reachable_init : reachable (initializeDatabase None)
| reachable_step req db : reachable db -> reachable (handle req db).2.

End Server.

(** ** The list state of [frontend/app.js] *)

Module Client.
Import Server.

(** [getFilteredTodos()], with the globals [currentFilter] and [todos] it
    reads as arguments. *)
Definition getFilteredTodos (currentFilter : string) (todos : list todo) : list todo :=
  if String.eqb currentFilter "active" then
    List.filter (fun t => negb (todo_completed t)) todos
  else if String.eqb currentFilter "completed" then
    List.filter (fun t => todo_completed t) todos
  else todos.

End Client.

(** ** Vocabulary of the statements *)

Module Props.
Import JsString Js Db Server.

(** A label as the API documents it: absent, or a text. *)
Definition text_label (label : option string) : value :=
  match label with
  | Some s => JString s
  | None => JUndefined
  end.

(** The text consists only of white space (the empty text included). *)
Fixpoint all_whitespace (s : string) : bool :=
  match s with
  | EmptyString => true
  | String c r => is_whitespace c && all_whitespace r
  end.

(** A stored label is non-empty after trimming and fits its column. *)
Definition label_ok (s : string) : Prop :=
  trim s <> "" /\ (String.length s <= 500)%nat.

Definition labels_ok (db : database) : Prop :=
  forall id s, todos db !! id = Some s -> label_ok (title s).

(** Every stored identifier was handed out by the AUTO_INCREMENT counter. *)
Definition ids_below (db : database) : Prop :=
  forall id s, todos db !! id = Some s -> id < auto_increment db.

(** The stored record after an update of the supplied fields. *)
Definition updated (old : stored) (b : body) : stored :=
  Stored
    (match body_title b with JString s => trim s | _ => title old end)
    (if defined (body_completed b)
     then (if truthy (body_completed b) then 1 else 0)
     else completed old)
    (created_at old).

End Props.

(** ** Sample requests and states *)

Module Sample.
Import JsString Js Db Server.

Definition clk : clocks := Clocks 1700000000 1700000000123.

Definition buy_milk : body := Body (JString "Buy milk") JUndefined.

Definition db0 : database := initializeDatabase None.

(** The table after [POST /api/todos {"title": "Buy milk"}]. *)
Definition db1 : database := (handle (POST_todos clk buy_milk) db0).2.

(** A text of 501 characters. *)
Definition long_label : string := repeat "a" 501.

End Sample.

(** ** Sequences of requests *)

Module Session.
Import JsString Js Db Server.

(** The table after the server has answered the requests, in order. *)
Fixpoint run (reqs : list request) (db : database) : database :=
  match reqs with
  | [] => db
  | req :: rest => run rest (handle req db).2
  end.

(** Later identifiers carry strictly later creation timestamps. *)
Definition chronological (db : database) : Prop :=
  forall i j si sj,
    todos db !! i = Some si -> todos db !! j = Some sj ->
    i < j -> created_at si < created_at sj.

(** The sample table after a second create, one minute later. *)
Definition db2 : database :=
  (handle (POST_todos (Clocks 1700000060 1700000060456)
                      (Body (JString "Walk the dog") JUndefined)) Sample.db1).2.

End Session.

(** ** The rest of [frontend/app.js]: state, rendering and the calls of the
       API *)

Module App.
Import JsString Js Db Server Client.

(** What the script reads and writes of the page.  [todoList_items] stands
    for [todoList.innerHTML]: one list element per item, in order.
    [filterBtn_active] is the [data-filter] value whose buttons carry the
    class [active].  A toast stays in [toasts]: its removal by timer is not
    modelled. *)
Record dom : Type := Dom {
  todoInput_value : string;
  todoList_items : list todo;
  emptyState_hidden : bool;
  emptyState_text : string;
  loadingState_hidden : bool;
  errorState_hidden : bool;
  errorMessage_text : string;
  statsSection_hidden : bool;
  itemsLeft_text : string;
  clearCompletedBtn_hidden : bool;
  toasts : list string;
  filterBtn_active : string
}.

(** [let todos = []; let currentFilter = 'all';] and the page. *)
Record state : Type := State {
  todos : list todo;
  currentFilter : string;
  document : dom
}.

(** The browser and the server it talks to.  [fetch] is a call of the
    server's handler; a fetch that is rejected by the network is not
    modelled. *)
Record world : Type := World {
  browser : state;
  server : database
}.

(** [function hideAllStates()] *)
Definition hideAllStates (d : dom) : dom :=
  Dom (todoInput_value d) (todoList_items d) true (emptyState_text d) true true
      (errorMessage_text d) (statsSection_hidden d) (itemsLeft_text d)
      (clearCompletedBtn_hidden d) (toasts d) (filterBtn_active d).

(** [function showLoading()] *)
Definition showLoading (d : dom) : dom :=
  let d := hideAllStates d in
  Dom (todoInput_value d) (todoList_items d) (emptyState_hidden d) (emptyState_text d)
      false (errorState_hidden d) (errorMessage_text d) (statsSection_hidden d)
      (itemsLeft_text d) (clearCompletedBtn_hidden d) (toasts d) (filterBtn_active d).

(** [function showError(message)] *)
Definition showError (message : string) (d : dom) : dom :=
  let d := hideAllStates d in
  Dom (todoInput_value d) (todoList_items d) (emptyState_hidden d) (emptyState_text d)
      (loadingState_hidden d) false message (statsSection_hidden d)
      (itemsLeft_text d) (clearCompletedBtn_hidden d) (toasts d) (filterBtn_active d).

(** [function showTemporaryError(message)] *)
Definition showTemporaryError (message : string) (d : dom) : dom :=
  Dom (todoInput_value d) (todoList_items d) (emptyState_hidden d) (emptyState_text d)
      (loadingState_hidden d) (errorState_hidden d) (errorMessage_text d)
      (statsSection_hidden d) (itemsLeft_text d) (clearCompletedBtn_hidden d)
      (toasts d ++ [message])%list (filterBtn_active d).

(** [`${n} item${n !== 1 ? 's' : ''} left`] *)
Definition items_left (n : nat) : string :=
  DecimalString.NilEmpty.string_of_uint (Nat.to_uint n)
  ++ " item" ++ (if (n =? 1)%nat then "" else "s") ++ " left".

(** [function renderTodos()] *)
Definition renderTodos (s : state) : state :=
  let d := hideAllStates (document s) in
  let filteredTodos := getFilteredTodos (currentFilter s) (todos s) in
  let activeTodos := List.filter (fun t => negb (todo_completed t)) (todos s) in
  let completedTodos := List.filter (fun t => todo_completed t) (todos s) in
  let d :=
    if (0 <? length (todos s))%nat then
      Dom (todoInput_value d) (todoList_items d) (emptyState_hidden d) (emptyState_text d)
          (loadingState_hidden d) (errorState_hidden d) (errorMessage_text d)
          false (items_left (length activeTodos)) (length completedTodos =? 0)%nat
          (toasts d) (filterBtn_active d)
    else
      Dom (todoInput_value d) (todoList_items d) (emptyState_hidden d) (emptyState_text d)
          (loadingState_hidden d) (errorState_hidden d) (errorMessage_text d)
          true (itemsLeft_text d) (clearCompletedBtn_hidden d)
          (toasts d) (filterBtn_active d) in
  if (length filteredTodos =? 0)%nat then
    let text :=
      if (length (todos s) =? 0)%nat then "No todos yet. Add one above!"
      else if String.eqb (currentFilter s) "active" then "No active todos. Great job!"
      else if String.eqb (currentFilter s) "completed" then "No completed todos yet."
      else emptyState_text d in
    State (todos s) (currentFilter s)
      (Dom (todoInput_value d) [] false text
           (loadingState_hidden d) (errorState_hidden d) (errorMessage_text d)
           (statsSection_hidden d) (itemsLeft_text d) (clearCompletedBtn_hidden d)
           (toasts d) (filterBtn_active d))
  else
    State (todos s) (currentFilter s)
      (Dom (todoInput_value d) filteredTodos (emptyState_hidden d) (emptyState_text d)
           (loadingState_hidden d) (errorState_hidden d) (errorMessage_text d)
           (statsSection_hidden d) (itemsLeft_text d) (clearCompletedBtn_hidden d)
           (toasts d) (filterBtn_active d)).

(** [response.ok] *)
Definition ok (res : response) : bool :=
  (200 <=? status res) && (status res <=? 299).

(** [todos.findIndex(p)]; [None] is -1. *)
Fixpoint findIndex {A} (p : A -> bool) (l : list A) : option nat :=
  match l with
  | [] => None
  | x :: r => if p x then Some O else option_map S (findIndex p r)
  end.

(** The functions that read [response.json()] as a todo or as a list of
    todos answer [None] when the body has another shape; what the script
    does then is not modelled. *)

(** [async function fetchTodos()] *)
Definition fetchTodos (w : world) : option world :=
  let s := browser w in
  let d := showLoading (document s) in
  let (response, db) := handle GET_todos (server w) in
  if ok response then
    match json response with
    | TodoList l => Some (World (renderTodos (State l (currentFilter s) d)) db)
    | _ => None
    end
  else
    Some (World (State (todos s) (currentFilter s) (showError "Failed to fetch todos" d)) db).

(** [async function createTodo(title)] *)
Definition createTodo (clk : clocks) (title : string) (w : world) : option (bool * world) :=
  let s := browser w in
  let (response, db) :=
    handle (POST_todos clk (Body (JString title) JUndefined)) (server w) in
  if ok response then
    match json response with
    | TodoItem newTodo =>
        Some (true,
              World (renderTodos (State (newTodo :: todos s) (currentFilter s) (document s))) db)
    | _ => None
    end
  else
    Some (false,
          World (State (todos s) (currentFilter s)
                   (showTemporaryError "Failed to create todo" (document s))) db).

(** [async function updateTodo(id, updates)] *)
Definition updateTodo (id : Z) (updates : body) (w : world) : option (bool * world) :=
  let s := browser w in
  let (response, db) := handle (PUT_todo id updates) (server w) in
  if ok response then
    match json response with
    | TodoItem updatedTodo =>
        let index := findIndex (fun t => todo_id t =? id) (todos s) in
        let todos' :=
          match index with
          | Some i => <[i := updatedTodo]> (todos s)
          | None => todos s
          end in
        Some (true, World (renderTodos (State todos' (currentFilter s) (document s))) db)
    | _ => None
    end
  else
    let w' :=
      World (State (todos s) (currentFilter s)
               (showTemporaryError "Failed to update todo" (document s))) db in
    match fetchTodos w' with
    | Some w'' => Some (false, w'')
    | None => None
    end.

(** [async function deleteTodo(id)] *)
Definition deleteTodo (id : Z) (w : world) : bool * world :=
  let s := browser w in
  let (response, db) := handle (DELETE_todo id) (server w) in
  if ok response then
    (true,
     World (renderTodos
              (State (List.filter (fun t => negb (todo_id t =? id)) (todos s))
                     (currentFilter s) (document s))) db)
  else
    (false,
     World (State (todos s) (currentFilter s)
              (showTemporaryError "Failed to delete todo" (document s))) db).

(** [todoInput.value = ''] *)
Definition clear_input (w : world) : world :=
  let s := browser w in
  let d := document s in
  World (State (todos s) (currentFilter s)
           (Dom "" (todoList_items d) (emptyState_hidden d) (emptyState_text d)
                (loadingState_hidden d) (errorState_hidden d) (errorMessage_text d)
                (statsSection_hidden d) (itemsLeft_text d) (clearCompletedBtn_hidden d)
                (toasts d) (filterBtn_active d)))
        (server w).

(** [async function handleAddTodo(e)] *)
Definition handleAddTodo (clk : clocks) (w : world) : option world :=
  let title := trim (todoInput_value (document (browser w))) in
  if is_empty title then Some w
  else
    match createTodo clk title w with
    | Some (success, w') => Some (if success then clear_input w' else w')
    | None => None
    end.

(** [async function handleToggle(id)] *)
Definition handleToggle (id : Z) (w : world) : option world :=
  match List.find (fun t => todo_id t =? id) (todos (browser w)) with
  | None => Some w
  | Some todo =>
      match updateTodo id (Body JUndefined (JBool (negb (todo_completed todo)))) w with
      | Some (_, w') => Some w'
      | None => None
      end
  end.

(** [async function handleDelete(id)] *)
Definition handleDelete (id : Z) (w : world) : world := (deleteTodo id w).2.

(** [async function handleClearCompleted()]: the loop runs over the list
    of completed items as it was when the button was clicked. *)
Definition handleClearCompleted (w : world) : world :=
  let completedTodos := List.filter (fun t => todo_completed t) (todos (browser w)) in
  fold_left (fun w todo => (deleteTodo (todo_id todo) w).2) completedTodos w.

(** [function setFilter(filter)] *)
Definition setFilter (filter : string) (w : world) : world :=
  let s := browser w in
  let d := document s in
  World (renderTodos
           (State (todos s) filter
              (Dom (todoInput_value d) (todoList_items d) (emptyState_hidden d)
                   (emptyState_text d) (loadingState_hidden d) (errorState_hidden d)
                   (errorMessage_text d) (statsSection_hidden d) (itemsLeft_text d)
                   (clearCompletedBtn_hidden d) (toasts d) filter)))
        (server w).

(** [async function init()] *)
Definition init (w : world) : option world := fetchTodos w.

(** The listeners that [setupEventListeners] and [renderTodos] attach. *)
Inductive event : Type :=
| Submit (clk : clocks)          (* the form *)
| ClickFilter (filter : string)  (* a filter button *)
| ClickRetry
| ClickClearCompleted
| ChangeCheckbox (id : Z)        (* the checkbox of a rendered item *)
| ClickDelete (id : Z).          (* the delete button of a rendered item *)

Definition dispatch (ev : event) (w : world) : option world :=
  match ev with
  | Submit clk => handleAddTodo clk w
  | ClickFilter filter => Some (setFilter filter w)
  | ClickRetry => fetchTodos w
  | ClickClearCompleted => Some (handleClearCompleted w)
  | ChangeCheckbox id => handleToggle id w
  | ClickDelete id => Some (handleDelete id w)
  end.

(** What the mirror and the table both hold of an item: the creation
    timestamp of a created item is the browser-side [new Date()] in the
    mirror and the database clock in the table. *)
Definition seen (t : todo) : Z * string * bool :=
  (todo_id t, todo_title t, todo_completed t).

Definition kept (id : Z) (s : stored) : Z * string * bool :=
  (id, title s, Boolean (completed s)).

(** The mirror agrees with the table: no identifier twice, and for every
    identifier the mirror's item and the stored row show the same label and
    flag, or both are missing. *)
Definition in_sync (w : world) : Prop :=
  NoDup (todo_id <$> todos (browser w)) /\
  forall id,
    seen <$> List.find (fun t => todo_id t =? id) (todos (browser w)) =
    kept id <$> (Db.todos (server w) !! id).

(** The list that list-all answers for a table. *)
Definition listed (db : database) : list todo :=
  map todo_of_row (merge_sort created_at_desc (row_of <$> map_to_list (Db.todos db))).

(** A page before the script has run, with "  Feed the cat " typed in,
    in front of the sample server. *)
Definition page0 : dom :=
  Dom "  Feed the cat " [] true "" false true "" true "" true [] "all".

Definition w0 : world := World (State [] "all" page0) Session.db2.

End App.

(** ** Leading and trailing white space *)

Module Trimming.
Import JsString.

(** The first character of the text is white space. *)
Definition starts_with_whitespace (s : string) : bool :=
  match s with
  | EmptyString => false
  | String c _ => is_whitespace c
  end.

(** The last character of the text is white space. *)
Fixpoint ends_with_whitespace (s : string) : bool :=
  match s with
  | EmptyString => false
  | String c EmptyString => is_whitespace c
  | String _ r => ends_with_whitespace r
  end.

End Trimming.

Import JsString Js Db Server Client Props.
Import Trimming.

(** ** Facts about [trim] *)

Lemma is_empty_true s : is_empty s = true <-> s = "".
Proof. destruct s; simpl; split; congruence. Qed.

Lemma is_empty_false s : is_empty s = false <-> s <> "".
Proof. destruct s; simpl; split; congruence. Qed.

Lemma trimStart_head s :
  trimStart s = "" \/
  exists c r, trimStart s = String c r /\ is_whitespace c = false.
Proof.
  induction s as [|c r IH]; simpl; [now left|].
  destruct (is_whitespace c) eqn:Hc; [exact IH|].
  right. now exists c, r.
Qed.

Lemma trimStart_fixed c r :
  is_whitespace c = false -> trimStart (String c r) = String c r.
Proof. intros H. simpl. now rewrite H. Qed.

Lemma trimEnd_head c r :
  is_whitespace c = false -> trimEnd (String c r) = String c (trimEnd r).
Proof. intros H. simpl. rewrite H. now destruct (trimEnd r). Qed.

Lemma trimEnd_idem s : trimEnd (trimEnd s) = trimEnd s.
Proof.
  induction s as [|c r IH]; simpl; [reflexivity|].
  destruct (trimEnd r) as [|c' r'] eqn:Hr.
  - destruct (is_whitespace c) eqn:Hc; simpl; [reflexivity|].
    now rewrite Hc.
  - simpl. simpl in IH. now rewrite IH.
Qed.

Lemma trim_idem s : trim (trim s) = trim s.
Proof.
  unfold trim. destruct (trimStart_head s) as [H | (c & r & H & Hc)];
    rewrite H.
  - reflexivity.
  - rewrite (trimEnd_head c r Hc), (trimStart_fixed c _ Hc).
    rewrite <- (trimEnd_head c r Hc). apply trimEnd_idem.
Qed.

Lemma trimStart_length s : (String.length (trimStart s) <= String.length s)%nat.
Proof.
  induction s as [|c r IH]; simpl; [lia|].
  destruct (is_whitespace c); simpl; lia.
Qed.

Lemma trimEnd_length s : (String.length (trimEnd s) <= String.length s)%nat.
Proof.
  induction s as [|c r IH]; simpl; [lia|].
  destruct (trimEnd r); [destruct (is_whitespace c)|]; simpl in *; lia.
Qed.

Lemma trim_length s : (String.length (trim s) <= String.length s)%nat.
Proof.
  unfold trim. etransitivity; [apply trimEnd_length | apply trimStart_length].
Qed.

Lemma repeat_length c n : String.length (repeat c n) = n.
Proof. induction n; simpl; congruence. Qed.

Lemma trim_repeat c n :
  is_whitespace c = false -> trim (repeat c n) = repeat c n.
Proof.
  intros Hc. unfold trim.
  assert (Hs : trimStart (repeat c n) = repeat c n)
    by (destruct n; simpl; [reflexivity | now rewrite Hc]).
  rewrite Hs. induction n as [|k IH]; [reflexivity|].
  change (repeat c (S k)) with (String c (repeat c k)).
  rewrite (trimEnd_head c _ Hc). f_equal. apply IH.
  destruct k; simpl; [reflexivity | now rewrite Hc].
Qed.


Lemma trimEnd_empty_head c r :
  is_whitespace c = false -> trimEnd (String c r) <> "".
Proof. intros H. rewrite (trimEnd_head c r H). discriminate. Qed.

Lemma trim_empty_iff s : trim s = "" <-> trimStart s = "".
Proof.
  unfold trim. destruct (trimStart_head s) as [H | (c & r & H & Hc)]; rewrite H.
  - tauto.
  - split; [intros E; now apply trimEnd_empty_head in E | discriminate].
Qed.

Lemma trimStart_empty_iff s : trimStart s = "" <-> all_whitespace s = true.
Proof.
  induction s as [|c r IH]; simpl; [tauto|].
  destruct (is_whitespace c); simpl; [exact IH|].
  split; discriminate.
Qed.

Lemma trim_all_whitespace s : trim s = "" <-> all_whitespace s = true.
Proof. rewrite trim_empty_iff. apply trimStart_empty_iff. Qed.

Lemma fits_title_iff s : fits_title s = true <-> (String.length s <= 500)%nat.
Proof. unfold fits_title, title_max. apply Nat.leb_le. Qed.

Lemma fits_title_false s : fits_title s = false <-> (500 < String.length s)%nat.
Proof. unfold fits_title, title_max. apply Nat.leb_gt. Qed.

(** ** The handlers in closed form *)

Lemma get_todo_eq id db :
  get_todo id db =
  match todos db !! id with
  | Some s =>
      (Response 200
         (TodoItem (Todo id (title s) (Boolean (completed s)) (created_at s))), db)
  | None => (Response 404 (Error "Todo not found"), db)
  end.
Proof.
  unfold get_todo, try_catch, get_todo_try, bind, sql_select_by_id.
  now destruct (todos db !! id).
Qed.

Lemma delete_todo_eq id db :
  delete_todo id db =
  match todos db !! id with
  | Some _ =>
      (Response 200 (Message "Todo deleted successfully"),
       Database (delete id (todos db)) (auto_increment db))
  | None => (Response 404 (Error "Todo not found"), db)
  end.
Proof.
  unfold delete_todo, try_catch, delete_todo_try, bind, sql_delete.
  now destruct (todos db !! id).
Qed.

Lemma get_todos_eq db :
  get_todos db =
  (Response 200
     (TodoList (map todo_of_row
        (merge_sort created_at_desc (row_of <$> map_to_list (todos db))))), db).
Proof. reflexivity. Qed.

Lemma post_todos_text clk s c db :
  post_todos clk (Body (JString s) c) db =
  if is_empty (trim s) then (Response 400 (Error "Title is required"), db)
  else if fits_title (trim s) then
    (Response 201 (TodoItem (Todo (auto_increment db) (trim s) false (date_now clk))),
     Database (<[auto_increment db := Stored (trim s) 0 (current_timestamp clk)]> (todos db))
              (auto_increment db + 1))
  else (Response 500 (Error "Failed to create todo"), db).
Proof.
  unfold post_todos, try_catch, post_todos_try, bind, sql_insert. simpl.
  destruct s as [|a r]; [reflexivity|]. simpl negb. cbv iota.
  unfold js_trim, ret.
  destruct (is_empty (trim (String a r))); [reflexivity|].
  now destruct (fits_title (trim (String a r))).
Qed.

Lemma post_todos_falsy clk t c db :
  truthy t = false ->
  post_todos clk (Body t c) db = (Response 400 (Error "Title is required"), db).
Proof.
  intros H. unfold post_todos, try_catch, post_todos_try, bind. simpl.
  now rewrite H.
Qed.

Lemma post_todos_not_text clk t c db :
  truthy t = true -> (forall s, t <> JString s) ->
  post_todos clk (Body t c) db = (Response 500 (Error "Failed to create todo"), db).
Proof.
  intros H Hs. unfold post_todos, try_catch, post_todos_try, bind. simpl.
  rewrite H. destruct t; try reflexivity. now destruct (Hs s).
Qed.

Lemma build_updates_eq b db :
  build_updates b db =
  let flag :=
    if defined (body_completed b)
    then [SetCompleted (if truthy (body_completed b) then 1 else 0)]
    else [] in
  match body_title b with
  | JUndefined =>
      if defined (body_completed b) then (inr (inr flag), db)
      else (inr (inl (Response 400 (Error "No fields to update"))), db)
  | JString s =>
      if is_empty (trim s)
      then (inr (inl (Response 400 (Error "Title cannot be empty"))), db)
      else (inr (inr (SetTitle (trim s) :: flag)), db)
  | _ => (inl TypeError, db)
  end.
Proof.
  destruct b as [t c]. unfold build_updates, bind. simpl.
  destruct t; simpl; try reflexivity.
  - now destruct (defined c).
  - unfold ret. destruct (is_empty (trim s)); [reflexivity|].
    now destruct (defined c).
Qed.

Lemma put_todo_eq id b db :
  put_todo id b db =
  match todos db !! id with
  | None => (Response 404 (Error "Todo not found"), db)
  | Some old =>
      match build_updates b db with
      | (inl _, _) => (Response 500 (Error "Failed to update todo"), db)
      | (inr (inl res), _) => (res, db)
      | (inr (inr updates), _) =>
          if forallb assignment_fits updates then
            let new := fold_left assign updates old in
            (Response 200
               (TodoItem (Todo id (title new) (Boolean (completed new)) (created_at new))),
             Database (<[id := new]> (todos db)) (auto_increment db))
          else (Response 500 (Error "Failed to update todo"), db)
      end
  end.
Proof.
  unfold put_todo, try_catch, put_todo_try, bind at 1, sql_select_by_id at 1.
  destruct (todos db !! id) as [old|] eqn:Hold; [|reflexivity].
  simpl. unfold bind at 1. rewrite build_updates_eq. cbv zeta.
  destruct (body_title b); try reflexivity.
  - destruct (defined (body_completed b)); [|reflexivity].
    unfold bind, sql_update, sql_select_by_id. rewrite Hold. simpl.
    now rewrite lookup_insert_eq.
  - destruct (is_empty (trim s)); [reflexivity|].
    unfold bind, sql_update, sql_select_by_id. rewrite Hold.
    destruct (forallb _ _); [|reflexivity]. simpl.
    now rewrite lookup_insert_eq.
Qed.

Lemma put_todo_outcome id b db old :
  todos db !! id = Some old ->
  put_todo id b db =
  let new := updated old b in
  let ok :=
    (Response 200
       (TodoItem (Todo id (title new) (Boolean (completed new)) (created_at new))),
     Database (<[id := new]> (todos db)) (auto_increment db)) in
  let failed := (Response 500 (Error "Failed to update todo"), db) in
  match body_title b with
  | JUndefined =>
      if defined (body_completed b) then ok
      else (Response 400 (Error "No fields to update"), db)
  | JString s =>
      if is_empty (trim s) then (Response 400 (Error "Title cannot be empty"), db)
      else if fits_title (trim s) then ok else failed
  | _ => failed
  end.
Proof.
  intros Hold. rewrite put_todo_eq, Hold, build_updates_eq. cbv zeta.
  unfold updated. destruct (body_title b); try reflexivity.
  - now destruct (defined (body_completed b)).
  - destruct (is_empty (trim s)); [reflexivity|].
    destruct (defined (body_completed b)); simpl;
      rewrite ?andb_true_r; now destruct (fits_title (trim s)).
Qed.

(** ** Invariants of the table *)

Lemma label_ok_trim s :
  is_empty (trim s) = false -> fits_title (trim s) = true -> label_ok (trim s).
Proof.
  intros He Hf. split.
  - rewrite trim_idem. now apply is_empty_false.
  - now apply fits_title_iff.
Qed.

Lemma labels_ok_insert db id s ai :
  labels_ok db -> label_ok (title s) ->
  labels_ok (Database (<[id := s]> (todos db)) ai).
Proof.
  intros Hdb Hs k s'. simpl. rewrite lookup_insert.
  case_decide; [intros [= <-]; exact Hs | apply Hdb].
Qed.

Lemma labels_ok_delete db id ai :
  labels_ok db -> labels_ok (Database (delete id (todos db)) ai).
Proof.
  intros Hdb k s'. simpl. rewrite lookup_delete.
  case_decide; [discriminate | apply Hdb].
Qed.

Lemma labels_ok_empty : labels_ok (initializeDatabase None).
Proof. intros k s. simpl. now rewrite lookup_empty. Qed.

Lemma labels_ok_post clk b db : labels_ok db -> labels_ok (post_todos clk b db).2.
Proof.
  intros Hdb. destruct b as [t c].
  destruct (truthy t) eqn:Ht; [|now rewrite post_todos_falsy].
  destruct t; try (rewrite post_todos_not_text; [exact Hdb | exact Ht | discriminate]).
  rewrite post_todos_text.
  destruct (is_empty (trim s)) eqn:He; [exact Hdb|].
  destruct (fits_title (trim s)) eqn:Hf; [|exact Hdb].
  apply labels_ok_insert; [exact Hdb | now apply label_ok_trim].
Qed.

Lemma labels_ok_put id b db : labels_ok db -> labels_ok (put_todo id b db).2.
Proof.
  intros Hdb. destruct (todos db !! id) as [old|] eqn:Hold.
  - rewrite (put_todo_outcome id b db old Hold). cbv zeta.
    pose proof (Hdb id old Hold) as Hok.
    destruct b as [t c]; unfold updated; simpl.
    destruct t; try exact Hdb.
    + destruct (defined c); [|exact Hdb]. now apply labels_ok_insert.
    + destruct (is_empty (trim s)) eqn:He; [exact Hdb|].
      destruct (fits_title (trim s)) eqn:Hf; [|exact Hdb].
      apply labels_ok_insert; [exact Hdb | now apply label_ok_trim].
  - now rewrite put_todo_eq, Hold.
Qed.

Lemma labels_ok_handle req db : labels_ok db -> labels_ok (handle req db).2.
Proof.
  intros Hdb. destruct req as [|id|clk b|id b|id|]; simpl; try exact Hdb.
  - rewrite get_todo_eq. now destruct (todos db !! id).
  - now apply labels_ok_post.
  - now apply labels_ok_put.
  - rewrite delete_todo_eq. destruct (todos db !! id); [|exact Hdb].
    now apply labels_ok_delete.
Qed.

Lemma ids_below_handle req db : ids_below db -> ids_below (handle req db).2.
Proof.
  intros Hdb. destruct req as [|id|clk b|id b|id|]; simpl; try exact Hdb.
  - rewrite get_todo_eq. now destruct (todos db !! id).
  - destruct b as [t c].
    destruct (truthy t) eqn:Ht; [|now rewrite post_todos_falsy].
    destruct t; try (rewrite post_todos_not_text; [exact Hdb | exact Ht | discriminate]).
    rewrite post_todos_text.
    destruct (is_empty (trim s)); [exact Hdb|].
    destruct (fits_title (trim s)); [|exact Hdb].
    intros k s'. simpl. rewrite lookup_insert. case_decide as Hk.
    + intros _. subst k. lia.
    + intros Hs. pose proof (Hdb k s' Hs). lia.
  - destruct (todos db !! id) as [old|] eqn:Hold.
    + rewrite (put_todo_outcome id b db old Hold). cbv zeta.
      assert (Hins : ids_below (Database (<[id := updated old b]> (todos db)) (auto_increment db))).
      { intros k s'. simpl. rewrite lookup_insert. case_decide as Hk.
        - intros _. subst k. exact (Hdb id old Hold).
        - apply Hdb. }
      destruct (body_title b); try exact Hdb.
      * now destruct (defined (body_completed b)).
      * destruct (is_empty (trim s)); [exact Hdb|].
        now destruct (fits_title (trim s)).
    + now rewrite put_todo_eq, Hold.
  - rewrite delete_todo_eq. destruct (todos db !! id); [|exact Hdb].
    intros k s'. simpl. rewrite lookup_delete. case_decide; [discriminate | apply Hdb].
Qed.

Lemma ids_below_empty : ids_below (initializeDatabase None).
Proof. intros k s. simpl. now rewrite lookup_empty. Qed.

Lemma reachable_labels_ok db : reachable db -> labels_ok db.
Proof.
  induction 1 as [|req db _ IH]; [apply labels_ok_empty | now apply labels_ok_handle].
Qed.

Lemma reachable_ids_below db : reachable db -> ids_below db.
Proof.
  induction 1 as [|req db _ IH]; [apply ids_below_empty | now apply ids_below_handle].
Qed.

Lemma ids_below_fresh db : ids_below db -> todos db !! auto_increment db = None.
Proof.
  intros Hdb. destruct (todos db !! auto_increment db) as [s|] eqn:Hs; [|reflexivity].
  pose proof (Hdb _ _ Hs). lia.
Qed.

(** ** Sample states *)

Lemma reachable_db1 : reachable Sample.db1.
Proof. apply reachable_step, reachable_init. Qed.

Lemma db1_lookup : todos Sample.db1 !! 1 = Some (Stored "Buy milk" 0 1700000000).
Proof. vm_compute. reflexivity. Qed.

Lemma long_label_trim : trim Sample.long_label = Sample.long_label.
Proof. apply trim_repeat. reflexivity. Qed.

Lemma long_label_length : String.length (trim Sample.long_label) = 501%nat.
Proof. rewrite long_label_trim. apply repeat_length. Qed.

(** ** The testable properties of the specification, run *)

Example create_buy_milk :
  (post_todos Sample.clk Sample.buy_milk Sample.db0).1 =
  Response 201 (TodoItem (Todo 1 "Buy milk" false 1700000000123)).
Proof. reflexivity. Qed.

Example create_trims :
  (post_todos Sample.clk (Body (JString "  Buy milk ") JUndefined) Sample.db0).1 =
  Response 201 (TodoItem (Todo 1 "Buy milk" false 1700000000123)).
Proof. reflexivity. Qed.

Example create_blank :
  post_todos Sample.clk (Body (JString "   ") JUndefined) Sample.db0 =
  (Response 400 (Error "Title is required"), Sample.db0).
Proof. reflexivity. Qed.

Example put_empty_body :
  put_todo 1 (Body JUndefined JUndefined) Sample.db1 =
  (Response 400 (Error "No fields to update"), Sample.db1).
Proof. vm_compute. reflexivity. Qed.

Example put_toggle :
  (put_todo 1 (Body JUndefined (JBool true)) Sample.db1).1 =
  Response 200 (TodoItem (Todo 1 "Buy milk" true 1700000000)).
Proof. vm_compute. reflexivity. Qed.

Example delete_unknown :
  delete_todo 7 Sample.db1 = (Response 404 (Error "Todo not found"), Sample.db1).
Proof. vm_compute. reflexivity. Qed.

Example filter_active :
  getFilteredTodos "active" [Todo 1 "a" true 0; Todo 2 "b" false 0] =
  [Todo 2 "b" false 0].
Proof. reflexivity. Qed.

(** A label that is not a text: a falsy one is answered like a missing
    one, a truthy one makes [title.trim] throw. *)
Example create_zero :
  (post_todos Sample.clk (Body (JNumber 0) JUndefined) Sample.db0).1 =
  Response 400 (Error "Title is required").
Proof. reflexivity. Qed.

Example create_number :
  (post_todos Sample.clk (Body (JNumber 5) JUndefined) Sample.db0).1 =
  Response 500 (Error "Failed to create todo").
Proof. reflexivity. Qed.

(** ** update *)

(** C1, as stated, fails: item 1 exists, the label is supplied and is not
    empty after trimming, yet the update of a 501-character label does not
    succeed; it answers 500 and changes nothing. *)
Lemma put_todo_long_label_fails :
  todos Sample.db1 !! 1 = Some (Stored "Buy milk" 0 1700000000) /\
  String.length (trim Sample.long_label) = 501%nat /\
  trim Sample.long_label <> "" /\
  put_todo 1 (Body (JString Sample.long_label) JUndefined) Sample.db1 =
    (Response 500 (Error "Failed to update todo"), Sample.db1).
Proof.
  split; [apply db1_lookup|]. split; [apply long_label_length|]. split.
  - rewrite long_label_trim. discriminate.
  - rewrite (put_todo_outcome _ _ _ _ db1_lookup). cbv zeta.
    cbn [body_title]. rewrite long_label_trim. reflexivity.
Qed.

(** C1 (amended): for every update(id, {label?, flag?}) with the label
    absent or a text: no item with that id gives 404; otherwise a supplied
    label that is empty after trimming gives 400; otherwise neither field
    supplied gives 400; otherwise a supplied label longer than 500
    characters after trimming gives 500; otherwise the update succeeds with
    200 and returns the updated item, which is also what is stored.  Every
    failure leaves the table unchanged. *)
Theorem put_todo_contract db id (label : option string) (flag : value) :
  let b := Body (text_label label) flag in
  let r := put_todo id b db in
  (todos db !! id = None -> r = (Response 404 (Error "Todo not found"), db)) /\
  (forall old, todos db !! id = Some old ->
     (forall l, label = Some l -> trim l = "" ->
        r = (Response 400 (Error "Title cannot be empty"), db)) /\
     (label = None -> flag = JUndefined ->
        r = (Response 400 (Error "No fields to update"), db)) /\
     (forall l, label = Some l -> trim l <> "" ->
        (500 < String.length (trim l))%nat ->
        r = (Response 500 (Error "Failed to update todo"), db)) /\
     ((label = None /\ flag <> JUndefined) \/
      (exists l, label = Some l /\ trim l <> "" /\
                 (String.length (trim l) <= 500)%nat) ->
      let new := updated old b in
      r = (Response 200
             (TodoItem (Todo id (title new) (Boolean (completed new)) (created_at new))),
           Database (<[id := new]> (todos db)) (auto_increment db)))).
Proof.
  cbv zeta. split.
  - intros Hnone. now rewrite put_todo_eq, Hnone.
  - intros old Hold. rewrite (put_todo_outcome _ _ _ _ Hold). cbv zeta.
    cbn [body_title body_completed].
    repeat split.
    + intros l -> Hl. cbn. now rewrite Hl.
    + intros -> ->. reflexivity.
    + intros l -> Hl Hlen. cbn [text_label].
      apply is_empty_false in Hl. apply fits_title_false in Hlen.
      now rewrite Hl, Hlen.
    + intros [[-> Hflag] | (l & -> & Hl & Hlen)]; cbn [text_label].
      * destruct flag; try reflexivity. now destruct Hflag.
      * apply is_empty_false in Hl. apply fits_title_iff in Hlen.
        now rewrite Hl, Hlen.
Qed.

(** ** create *)

(** C2, as stated, fails: a label of 501 characters is non-empty after
    trimming, yet the create answers 500, not 201, and stores nothing. *)
Lemma post_todos_long_label_fails :
  String.length (trim Sample.long_label) = 501%nat /\
  trim Sample.long_label <> "" /\
  post_todos Sample.clk (Body (JString Sample.long_label) JUndefined) Sample.db0 =
    (Response 500 (Error "Failed to create todo"), Sample.db0).
Proof.
  split; [apply long_label_length|]. split.
  - rewrite long_label_trim. discriminate.
  - rewrite post_todos_text, long_label_trim. reflexivity.
Qed.

(** C2 (amended): for every create whose label is a text that is non-empty
    after trimming and at most 500 characters long after trimming, the
    operation answers 201 with an item whose id is fresh (no stored item has
    it, and it is greater than every stored id), whose flag is false and
    whose label is the trimmed text; the item is stored under that id. *)
Theorem post_todos_creates db clk s c :
  reachable db ->
  trim s <> "" ->
  (String.length (trim s) <= 500)%nat ->
  exists id : Z,
    post_todos clk (Body (JString s) c) db =
      (Response 201 (TodoItem (Todo id (trim s) false (date_now clk))),
       Database (<[id := Stored (trim s) 0 (current_timestamp clk)]> (todos db))
                (id + 1)) /\
    todos db !! id = None /\
    (forall k, is_Some (todos db !! k) -> k < id).
Proof.
  intros Hdb Hs Hlen. exists (auto_increment db).
  apply reachable_ids_below in Hdb.
  apply is_empty_false in Hs. apply fits_title_iff in Hlen.
  rewrite post_todos_text, Hs, Hlen. split; [reflexivity|]. split.
  - now apply ids_below_fresh.
  - intros k [x Hx]. exact (Hdb k x Hx).
Qed.

Lemma post_todos_creates_witness :
  exists id : Z,
    post_todos Sample.clk Sample.buy_milk Sample.db1 =
      (Response 201 (TodoItem (Todo id "Buy milk" false 1700000000123)),
       Database (<[id := Stored "Buy milk" 0 1700000000]> (todos Sample.db1))
                (id + 1)) /\
    todos Sample.db1 !! id = None /\
    (forall k, is_Some (todos Sample.db1 !! k) -> k < id).
Proof.
  apply (post_todos_creates Sample.db1 Sample.clk "Buy milk" JUndefined).
  - exact reachable_db1.
  - discriminate.
  - simpl. lia.
Defined.

(** C3: a create whose label is absent or a text answers 400 exactly when
    the label is missing, empty, or consists only of white space; and when
    it answers 400 the table is unchanged. *)
Theorem post_todos_validation db clk (label : option string) c :
  let r := post_todos clk (Body (text_label label) c) db in
  (status r.1 = 400 <->
     label = None \/ label = Some "" \/
     exists s, label = Some s /\ all_whitespace s = true) /\
  (status r.1 = 400 -> r.2 = db).
Proof.
  cbv zeta. destruct label as [s|]; cbn [text_label].
  - rewrite post_todos_text.
    destruct (is_empty (trim s)) eqn:He.
    + split; [|reflexivity]. split; [intros _|reflexivity].
      right. right. exists s. split; [reflexivity|].
      now apply trim_all_whitespace, is_empty_true.
    + assert (Hne : status (if fits_title (trim s)
          then (Response 201 (TodoItem (Todo (auto_increment db) (trim s) false (date_now clk))),
                Database (<[auto_increment db := Stored (trim s) 0 (current_timestamp clk)]> (todos db))
                         (auto_increment db + 1))
          else (Response 500 (Error "Failed to create todo"), db)).1 <> 400)
        by (destruct (fits_title (trim s)); discriminate).
      split; [|intros E; now destruct Hne]. split; [intros E; now destruct Hne|].
      intros [E | [E | (s' & E & Hw)]]; try discriminate.
      * injection E as ->. discriminate.
      * injection E as <-. apply trim_all_whitespace, is_empty_true in Hw.
        congruence.
  - rewrite post_todos_falsy by reflexivity. split; [|reflexivity].
    split; [now left | reflexivity].
Qed.

(** ** delete *)

(** C4: a delete of an id that no item has answers 404 and leaves the table
    unchanged; a delete of an existing item answers 200, removes that item
    and keeps every other item. *)
Theorem delete_todo_contract db id :
  (todos db !! id = None ->
     delete_todo id db = (Response 404 (Error "Todo not found"), db)) /\
  (is_Some (todos db !! id) ->
     let r := delete_todo id db in
     r.1 = Response 200 (Message "Todo deleted successfully") /\
     todos r.2 !! id = None /\
     (forall k, k <> id -> todos r.2 !! k = todos db !! k) /\
     auto_increment r.2 = auto_increment db).
Proof.
  rewrite delete_todo_eq. split.
  - now intros ->.
  - intros [s ->]. cbv zeta. simpl. split; [reflexivity|]. split.
    + apply lookup_delete_eq.
    + split; [|reflexivity]. intros k Hk. now apply lookup_delete_ne.
Qed.

(** ** get-by-id *)

(** C9: get-by-id answers 404 exactly when no item has the id; otherwise it
    answers 200 with exactly the stored item of that id, and it never
    changes the table. *)
Theorem get_todo_contract db id :
  (status (get_todo id db).1 = 404 <-> todos db !! id = None) /\
  (forall s, todos db !! id = Some s ->
     get_todo id db =
       (Response 200
          (TodoItem (Todo id (title s) (Boolean (completed s)) (created_at s))), db)) /\
  (get_todo id db).2 = db.
Proof.
  rewrite get_todo_eq. destruct (todos db !! id) as [s|]; simpl.
  - repeat split; try discriminate. now intros s' [= ->].
  - repeat split; discriminate.
Qed.

(** ** list-all *)

#[local] Instance created_at_desc_trans : Transitive created_at_desc.
Proof. unfold created_at_desc. intros x y z. lia. Qed.

#[local] Instance created_at_desc_total : Total created_at_desc.
Proof. unfold created_at_desc. intros x y. lia. Qed.

Lemma StronglySorted_lookup {A} (R : relation A) (l : list A) i j a b :
  StronglySorted R l -> (i < j)%nat ->
  l !! i = Some a -> l !! j = Some b -> R a b.
Proof.
  intros Hl. revert i j. induction Hl as [|x l Hl IH Hx]; intros i j Hij Hi Hj.
  - now rewrite lookup_nil in Hi.
  - destruct j as [|j]; [lia|]. rewrite lookup_cons in Hj. simpl in Hj.
    destruct i as [|i].
    + injection Hi as <-. rewrite Forall_forall in Hx. apply Hx.
      eapply list_elem_of_lookup_2. exact Hj.
    + apply (IH i j); [lia | exact Hi | exact Hj].
Qed.

Lemma rows_sorted db :
  StronglySorted created_at_desc
    (merge_sort created_at_desc (row_of <$> map_to_list (todos db))).
Proof. apply StronglySorted_merge_sort; apply _. Qed.

Lemma rows_elem_of db r :
  r ∈ merge_sort created_at_desc (row_of <$> map_to_list (todos db)) <->
  exists id s, todos db !! id = Some s /\ r = row_of (id, s).
Proof.
  rewrite merge_sort_Permutation, list_elem_of_fmap. split.
  - intros ([id s] & -> & Hin). apply elem_of_map_to_list in Hin. now exists id, s.
  - intros (id & s & Hs & ->). exists (id, s). split; [reflexivity|].
    now apply elem_of_map_to_list.
Qed.

(** C5: for every state of the table, list-all answers 200 with all the
    stored items and only them, each once, ordered newest-first: of any two
    items in the list, the earlier one has a creation timestamp no earlier
    than the later one's.  The table is unchanged. *)
Theorem get_todos_newest_first db :
  exists l : list todo,
    get_todos db = (Response 200 (TodoList l), db) /\
    (forall t, t ∈ l <->
       exists id s, todos db !! id = Some s /\
         t = Todo id (title s) (Boolean (completed s)) (created_at s)) /\
    length l = size (todos db) /\
    l ≡ₚ (todo_of_row ∘ row_of) <$> map_to_list (todos db) /\
    (forall i j a b, (i < j)%nat -> l !! i = Some a -> l !! j = Some b ->
       todo_created_at b <= todo_created_at a).
Proof.
  eexists. split; [apply get_todos_eq|]. split; [|split; [|split]].
  - intros t. change (map todo_of_row ?x) with (todo_of_row <$> x).
    rewrite list_elem_of_fmap. split.
    + intros (r & -> & Hr). apply rows_elem_of in Hr as (id & s & Hs & ->).
      now exists id, s.
    + intros (id & s & Hs & ->). exists (row_of (id, s)). split; [reflexivity|].
      apply rows_elem_of. now exists id, s.
  - rewrite length_map, merge_sort_Permutation, length_fmap.
    apply length_map_to_list.
  - change (map todo_of_row ?x) with (todo_of_row <$> x).
    now rewrite merge_sort_Permutation, <- list_fmap_compose.
  - intros i j a b Hij Ha Hb.
    change (map todo_of_row ?x) with (todo_of_row <$> x) in Ha, Hb.
    rewrite list_lookup_fmap in Ha, Hb.
    destruct (_ !! i) as [ra|] eqn:Hra; [|discriminate].
    destruct (_ !! j) as [rb|] eqn:Hrb; [|discriminate].
    injection Ha as <-. injection Hb as <-. simpl.
    exact (StronglySorted_lookup _ _ i j ra rb (rows_sorted db) Hij Hra Hrb).
Qed.

(** ** The client's filter *)

(** C6: for every mirror array, the list filtered by 'active' holds exactly
    the items of the mirror whose completion flag is false: it never
    includes an item with flag true, and it includes every item with flag
    false. *)
Theorem active_filter_excludes_completed (todos : list todo) (t : todo) :
  In t (getFilteredTodos "active" todos) <->
  In t todos /\ todo_completed t = false.
Proof.
  unfold getFilteredTodos. simpl. rewrite filter_In.
  now rewrite negb_true_iff.
Qed.

(** ** Frame of update *)

Lemma put_todo_success id b db :
  status (put_todo id b db).1 = 200 ->
  exists old,
    todos db !! id = Some old /\
    (body_title b = JUndefined \/ exists s, body_title b = JString s) /\
    put_todo id b db =
      (Response 200
         (TodoItem (Todo id (title (updated old b))
                      (Boolean (completed (updated old b)))
                      (created_at (updated old b)))),
       Database (<[id := updated old b]> (todos db)) (auto_increment db)).
Proof.
  destruct (todos db !! id) as [old|] eqn:Hold.
  - rewrite (put_todo_outcome _ _ _ _ Hold). cbv zeta. intros H.
    exists old. split; [reflexivity|].
    destruct (body_title b) eqn:Ht; try discriminate.
    + split; [now left|].
      destruct (defined (body_completed b)); [reflexivity | discriminate].
    + split; [right; now exists s|].
      destruct (is_empty (trim s)); [discriminate|].
      destruct (fits_title (trim s)); [reflexivity | discriminate].
  - rewrite put_todo_eq, Hold. discriminate.
Qed.

(** C7: after every successful update only the supplied fields of the
    addressed item have changed, and they hold the supplied values: the
    item keeps its identifier and its creation timestamp, an absent label
    leaves the label, an absent flag leaves the flag, every other stored
    item is unchanged, and so is the identifier counter. *)
Theorem put_todo_frame id b db :
  status (put_todo id b db).1 = 200 ->
  exists old new,
    todos db !! id = Some old /\
    todos (put_todo id b db).2 !! id = Some new /\
    json (put_todo id b db).1 =
      TodoItem (Todo id (title new) (Boolean (completed new)) (created_at new)) /\
    created_at new = created_at old /\
    (body_title b = JUndefined -> title new = title old) /\
    (forall s, body_title b = JString s -> title new = trim s) /\
    (body_completed b = JUndefined -> completed new = completed old) /\
    (body_completed b <> JUndefined ->
       completed new = if truthy (body_completed b) then 1 else 0) /\
    (forall k, k <> id -> todos (put_todo id b db).2 !! k = todos db !! k) /\
    dom (todos (put_todo id b db).2) = dom (todos db) /\
    auto_increment (put_todo id b db).2 = auto_increment db.
Proof.
  intros H. destruct (put_todo_success _ _ _ H) as (old & Hold & Ht & ->).
  exists old, (updated old b). simpl.
  split; [exact Hold|]. split; [apply lookup_insert_eq|].
  split; [reflexivity|]. split; [reflexivity|].
  split; [now intros ->|]. split; [now intros s ->|].
  split; [now intros ->|].
  split; [intros Hc; now destruct (body_completed b)|].
  split; [intros k Hk; now apply lookup_insert_ne|].
  split; [|reflexivity].
  apply dom_insert_lookup_L. now exists old.
Qed.

Lemma put_todo_frame_witness :
  exists old new,
    todos Sample.db1 !! 1 = Some old /\
    todos (put_todo 1 (Body JUndefined (JBool true)) Sample.db1).2 !! 1 = Some new /\
    json (put_todo 1 (Body JUndefined (JBool true)) Sample.db1).1 =
      TodoItem (Todo 1 (title new) (Boolean (completed new)) (created_at new)) /\
    created_at new = created_at old /\
    (JUndefined = JUndefined -> title new = title old) /\
    (forall s, JUndefined = JString s -> title new = trim s) /\
    (JBool true = JUndefined -> completed new = completed old) /\
    (JBool true <> JUndefined -> completed new = 1) /\
    (forall k, k <> 1 ->
       todos (put_todo 1 (Body JUndefined (JBool true)) Sample.db1).2 !! k =
       todos Sample.db1 !! k) /\
    dom (todos (put_todo 1 (Body JUndefined (JBool true)) Sample.db1).2) =
      dom (todos Sample.db1) /\
    auto_increment (put_todo 1 (Body JUndefined (JBool true)) Sample.db1).2 =
      auto_increment Sample.db1.
Proof.
  apply (put_todo_frame 1 (Body JUndefined (JBool true)) Sample.db1).
  vm_compute. reflexivity.
Defined.

(** ** The label invariant *)

(** C8: every stored label is non-empty after trimming and at most 500
    characters long: this holds of the table as it is created, every
    operation preserves it (create and update included), and so it holds in
    every state the server reaches. *)
Theorem stored_labels_invariant :
  labels_ok (initializeDatabase None) /\
  (forall req db, labels_ok db -> labels_ok (handle req db).2) /\
  (forall db id s, reachable db -> todos db !! id = Some s ->
     trim (title s) <> "" /\ (String.length (title s) <= 500)%nat).
Proof.
  split; [apply labels_ok_empty|]. split; [apply labels_ok_handle|].
  intros db id s Hdb Hs. exact (reachable_labels_ok db Hdb id s Hs).
Qed.

(** ** Trimming *)

Lemma append_String a s t : String a s ++ t = String a (s ++ t).
Proof. reflexivity. Qed.

Lemma append_empty t : "" ++ t = t.
Proof. reflexivity. Qed.

Lemma trimStart_split s :
  exists pre, s = pre ++ trimStart s /\ all_whitespace pre = true.
Proof.
  induction s as [|a r (pre & E & Hpre)]; simpl.
  - now exists "".
  - destruct (is_whitespace a) eqn:Ha.
    + exists (String a pre). simpl. rewrite Ha, Hpre, append_String. now rewrite <- E.
    + now exists "".
Qed.

Lemma trimEnd_split s :
  exists post, s = trimEnd s ++ post /\ all_whitespace post = true.
Proof.
  induction s as [|a r (post & E & Hpost)]; simpl.
  - now exists "".
  - destruct (trimEnd r) as [|a' r'] eqn:Hr.
    + rewrite append_empty in E. destruct (is_whitespace a) eqn:Ha.
      * exists (String a post). simpl. rewrite Ha, Hpost, append_empty.
        now rewrite <- E.
      * exists post. rewrite append_String, append_empty.
        split; [now rewrite <- E | exact Hpost].
    + exists post. split; [|exact Hpost]. rewrite append_String. now rewrite <- E.
Qed.

Lemma trim_split s :
  exists pre post,
    s = pre ++ trim s ++ post /\
    all_whitespace pre = true /\ all_whitespace post = true.
Proof.
  destruct (trimStart_split s) as (pre & E & Hpre).
  destruct (trimEnd_split (trimStart s)) as (post & E' & Hpost).
  exists pre, post. unfold trim. now rewrite <- E', <- E.
Qed.

Lemma trim_no_leading s : starts_with_whitespace (trim s) = false.
Proof.
  unfold trim. destruct (trimStart_head s) as [H | (a & r & H & Ha)]; rewrite H.
  - reflexivity.
  - now rewrite (trimEnd_head a r Ha).
Qed.

Lemma trimEnd_no_trailing s : ends_with_whitespace (trimEnd s) = false.
Proof.
  induction s as [|a r IH]; simpl; [reflexivity|].
  destruct (trimEnd r) as [|a' r'] eqn:Hr.
  - destruct (is_whitespace a) eqn:Ha; simpl; [reflexivity | exact Ha].
  - exact IH.
Qed.

Lemma trim_no_trailing s : ends_with_whitespace (trim s) = false.
Proof. apply trimEnd_no_trailing. Qed.

(** C10: the label a create or a label-changing update stores and returns
    is the supplied text with leading and trailing white space removed:
    the supplied text is that label between two runs of white space, and
    the label neither starts nor ends with white space; a create, or an
    update of an existing item, whose label is non-empty and at most 500
    characters long after trimming succeeds and stores and returns exactly
    that label, and no successful create or update stores or returns any
    other.  Storing is idempotent with respect to trimming: the request
    with label L and the request with label trim(L) have the same answer
    and leave the same table. *)
Theorem stored_label_is_trimmed db clk id (L : string) (c : value) :
  (exists pre post,
     L = pre ++ trim L ++ post /\
     all_whitespace pre = true /\ all_whitespace post = true) /\
  starts_with_whitespace (trim L) = false /\
  ends_with_whitespace (trim L) = false /\
  (trim L <> "" -> (String.length (trim L) <= 500)%nat ->
     exists t db',
       post_todos clk (Body (JString L) c) db = (Response 201 (TodoItem t), db') /\
       todo_title t = trim L /\
       exists s, todos db' !! todo_id t = Some s /\ title s = trim L) /\
  (is_Some (todos db !! id) ->
   trim L <> "" -> (String.length (trim L) <= 500)%nat ->
     exists t db',
       put_todo id (Body (JString L) c) db = (Response 200 (TodoItem t), db') /\
       todo_title t = trim L /\
       exists s, todos db' !! id = Some s /\ title s = trim L) /\
  (forall t db',
     post_todos clk (Body (JString L) c) db = (Response 201 (TodoItem t), db') ->
     todo_title t = trim L /\
     exists s, todos db' !! todo_id t = Some s /\ title s = trim L) /\
  (forall t db',
     put_todo id (Body (JString L) c) db = (Response 200 (TodoItem t), db') ->
     todo_title t = trim L /\
     exists s, todos db' !! id = Some s /\ title s = trim L) /\
  post_todos clk (Body (JString (trim L)) c) db =
    post_todos clk (Body (JString L) c) db /\
  put_todo id (Body (JString (trim L)) c) db =
    put_todo id (Body (JString L) c) db.
Proof.
  split; [apply trim_split|]. split; [apply trim_no_leading|].
  split; [apply trim_no_trailing|].
  split; [|split; [|split; [|split; [|split]]]].
  - intros He Hl. apply is_empty_false in He. apply fits_title_iff in Hl.
    rewrite post_todos_text, He, Hl. eexists _, _. split; [reflexivity|].
    simpl. split; [reflexivity|].
    eexists. split; [apply lookup_insert_eq | reflexivity].
  - intros [old Hold] He Hl. apply is_empty_false in He. apply fits_title_iff in Hl.
    rewrite (put_todo_outcome _ _ _ _ Hold). cbv zeta. cbn [body_title].
    rewrite He, Hl. eexists _, _. split; [reflexivity|].
    simpl. split; [reflexivity|].
    eexists. split; [apply lookup_insert_eq | reflexivity].
  - intros t db'. rewrite post_todos_text.
    destruct (is_empty (trim L)); [discriminate|].
    destruct (fits_title (trim L)); [|discriminate].
    intros [= <- <-]. simpl. split; [reflexivity|].
    eexists. split; [apply lookup_insert_eq | reflexivity].
  - intros t db' H.
    assert (Hst : status (put_todo id (Body (JString L) c) db).1 = 200)
      by now rewrite H.
    destruct (put_todo_success _ _ _ Hst) as (old & Hold & _ & E).
    rewrite E in H. injection H as <- <-. simpl. split; [reflexivity|].
    eexists. split; [apply lookup_insert_eq | reflexivity].
  - now rewrite !post_todos_text, trim_idem.
  - rewrite !put_todo_eq, !build_updates_eq. cbn [body_title body_completed].
    now rewrite trim_idem.
Qed.

Lemma stored_label_is_trimmed_witness :
  (exists t db',
     post_todos Sample.clk (Body (JString "  Buy oat milk ") JUndefined) Sample.db1 =
       (Response 201 (TodoItem t), db') /\
     todo_title t = "Buy oat milk" /\
     exists s, todos db' !! todo_id t = Some s /\ title s = "Buy oat milk") /\
  (exists t db',
     put_todo 1 (Body (JString "  Buy oat milk ") JUndefined) Sample.db1 =
       (Response 200 (TodoItem t), db') /\
     todo_title t = "Buy oat milk" /\
     exists s, todos db' !! 1 = Some s /\ title s = "Buy oat milk").
Proof.
  destruct (stored_label_is_trimmed Sample.db1 Sample.clk 1 "  Buy oat milk " JUndefined)
    as (_ & _ & _ & Hcreate & Hupdate & _).
  split.
  - apply Hcreate; [discriminate | simpl; lia].
  - apply Hupdate; [|discriminate | simpl; lia].
    exists (Stored "Buy milk" 0 1700000000). apply db1_lookup.
Defined.

(** * Further properties of the handlers *)

Import Session.

(** ** Requests whose label is not a text *)

Lemma post_todos_cases clk t c db :
  (truthy t = false /\
   post_todos clk (Body t c) db = (Response 400 (Error "Title is required"), db)) \/
  (truthy t = true /\ (forall s, t <> JString s) /\
   post_todos clk (Body t c) db = (Response 500 (Error "Failed to create todo"), db)) \/
  (exists s, t = JString s /\ truthy t = true /\ trim s = "" /\
   post_todos clk (Body t c) db = (Response 400 (Error "Title is required"), db)) \/
  (exists s, t = JString s /\ truthy t = true /\ trim s <> "" /\
   (500 < String.length (trim s))%nat /\
   post_todos clk (Body t c) db = (Response 500 (Error "Failed to create todo"), db)) \/
  (exists s, t = JString s /\ truthy t = true /\ trim s <> "" /\
   (String.length (trim s) <= 500)%nat /\
   post_todos clk (Body t c) db =
     (Response 201 (TodoItem (Todo (auto_increment db) (trim s) false (date_now clk))),
      Database (<[auto_increment db := Stored (trim s) 0 (current_timestamp clk)]> (todos db))
               (auto_increment db + 1))).
Proof.
  destruct (truthy t) eqn:Ht.
  - right. destruct t; try (left; split; [reflexivity|]; split;
      [discriminate | now apply post_todos_not_text]).
    right. rewrite post_todos_text.
    destruct (is_empty (trim s)) eqn:He.
    + left. exists s. apply is_empty_true in He. now rewrite He.
    + right. apply is_empty_false in He.
      destruct (fits_title (trim s)) eqn:Hf.
      * right. exists s. apply fits_title_iff in Hf. now repeat split.
      * left. exists s. apply fits_title_false in Hf. now repeat split.
  - left. split; [reflexivity | now apply post_todos_falsy].
Qed.

(** X1: for a label of any JSON type, create answers 400 exactly when the
    label is falsy (absent, null, false, 0, the empty text) or a text of
    white space only; 500 exactly when it is a truthy value that is not a
    text, or a text longer than 500 characters after trimming; and 201
    exactly when it is a text that is non-empty and at most 500 characters
    long after trimming. *)
Theorem post_todos_status clk t c db :
  let r := (post_todos clk (Body t c) db).1 in
  (status r = 400 <-> truthy t = false \/ exists s, t = JString s /\ trim s = "") /\
  (status r = 500 <->
     truthy t = true /\
     ((forall s, t <> JString s) \/
      exists s, t = JString s /\ trim s <> "" /\ (500 < String.length (trim s))%nat)) /\
  (status r = 201 <->
     exists s, t = JString s /\ trim s <> "" /\ (String.length (trim s) <= 500)%nat).
Proof.
  cbv zeta.
  destruct (post_todos_cases clk t c db)
    as [(Ht & ->) | [(Ht & Hs & ->) | [(s & -> & Ht & He & ->) |
       [(s & -> & Ht & He & Hl & ->) | (s & -> & Ht & He & Hl & ->)]]]]; simpl status.
  - split; [|split]; (split; [try discriminate | ]).
    + now left.
    + reflexivity.
    + intros [Ht' _]. congruence.
    + intros (s & -> & He & _). destruct s; [now destruct He | discriminate].
  - split; [|split]; (split; [try discriminate | ]).
    + intros [Ht' | (s & -> & _)]; [congruence | now destruct (Hs s)].
    + intros _. split; [exact Ht | now left].
    + reflexivity.
    + intros (s & -> & _). now destruct (Hs s).
  - split; [|split]; (split; [try discriminate | ]).
    + intros _. right. now exists s.
    + reflexivity.
    + intros [_ [Hs | (s' & [= <-] & He' & _)]]; [now destruct (Hs s) | now destruct He'].
    + intros (s' & [= <-] & He' & _). now destruct He'.
  - split; [|split]; (split; [try discriminate | ]).
    + intros [Ht' | (s' & [= <-] & He')]; [congruence | now destruct He].
    + intros _. split; [exact Ht|]. right. now exists s.
    + reflexivity.
    + intros (s' & [= <-] & _ & Hl'). lia.
  - split; [|split]; (split; [try discriminate | ]).
    + intros [Ht' | (s' & [= <-] & He')]; [congruence | now destruct He].
    + intros [_ [Hs | (s' & [= <-] & _ & Hl')]]; [now destruct (Hs s) | lia].
    + intros _. now exists s.
    + reflexivity.
Qed.

(** X2: an update of an existing item whose label is present but not a text
    (null, a boolean, a number, an array or object) answers 500 and changes
    nothing, whereas create answers 400 to the falsy ones among them. *)
Theorem put_todo_label_not_text id t c db :
  is_Some (todos db !! id) ->
  t <> JUndefined -> (forall s, t <> JString s) ->
  put_todo id (Body t c) db = (Response 500 (Error "Failed to update todo"), db).
Proof.
  intros [old Hold] Hu Hs. rewrite (put_todo_outcome _ _ _ _ Hold). cbv zeta.
  cbn [body_title]. destruct t; try reflexivity.
  - now destruct Hu.
  - now destruct (Hs s).
Qed.

Lemma put_todo_label_not_text_witness :
  put_todo 1 (Body JNull JUndefined) Sample.db1 =
  (Response 500 (Error "Failed to update todo"), Sample.db1).
Proof.
  apply (put_todo_label_not_text 1 JNull JUndefined Sample.db1).
  - exists (Stored "Buy milk" 0 1700000000). vm_compute. reflexivity.
  - discriminate.
  - discriminate.
Defined.

Lemma Boolean_truthy (v : value) : Boolean (if truthy v then 1 else 0) = truthy v.
Proof. now destruct (truthy v). Qed.

(** X3: an update that supplies only a flag accepts a flag of any JSON type
    and stores its truthiness: the item is stored with 1 for a truthy flag
    and 0 otherwise (null, 0 and the empty text clear it), and the answer
    shows that boolean with the label and creation timestamp untouched. *)
Theorem put_todo_flag_truthiness id flag db old :
  todos db !! id = Some old ->
  flag <> JUndefined ->
  put_todo id (Body JUndefined flag) db =
    (Response 200 (TodoItem (Todo id (title old) (truthy flag) (created_at old))),
     Database (<[id := Stored (title old) (if truthy flag then 1 else 0) (created_at old)]>
                 (todos db))
              (auto_increment db)).
Proof.
  intros Hold Hf. rewrite (put_todo_outcome _ _ _ _ Hold). cbv zeta.
  unfold updated. cbn [body_title body_completed].
  assert (Hd : defined flag = true) by (destruct flag; try reflexivity; now destruct Hf).
  rewrite Hd. simpl. now rewrite Boolean_truthy.
Qed.

Lemma put_todo_flag_truthiness_witness :
  put_todo 1 (Body JUndefined (JString "yes")) Sample.db1 =
    (Response 200 (TodoItem (Todo 1 "Buy milk" true 1700000000)),
     Database (<[1 := Stored "Buy milk" 1 1700000000]> (todos Sample.db1))
              (auto_increment Sample.db1)).
Proof.
  apply (put_todo_flag_truthiness 1 (JString "yes") Sample.db1
           (Stored "Buy milk" 0 1700000000)).
  - vm_compute. reflexivity.
  - discriminate.
Defined.

(** ** What a request can and cannot do *)

Lemma put_todo_cases id b db :
  (exists res, put_todo id b db = (res, db) /\
     (status res = 400 \/ status res = 404 \/ status res = 500)) \/
  (exists old, todos db !! id = Some old /\
     put_todo id b db =
       (Response 200
          (TodoItem (Todo id (title (updated old b)) (Boolean (completed (updated old b)))
                       (created_at (updated old b)))),
        Database (<[id := updated old b]> (todos db)) (auto_increment db))).
Proof.
  destruct (todos db !! id) as [old|] eqn:Hold.
  - rewrite (put_todo_outcome _ _ _ _ Hold). cbv zeta.
    destruct (body_title b);
      try (left; eexists; split; [reflexivity | simpl; tauto]).
    + destruct (defined (body_completed b)).
      * right. now exists old.
      * left. eexists; split; [reflexivity | simpl; tauto].
    + destruct (is_empty (trim s));
        [left; eexists; split; [reflexivity | simpl; tauto]|].
      destruct (fits_title (trim s)).
      * right. now exists old.
      * left. eexists; split; [reflexivity | simpl; tauto].
  - left. rewrite put_todo_eq, Hold. eexists; split; [reflexivity | simpl; tauto].
Qed.

Lemma post_todos_cases_short clk b db :
  (exists res, post_todos clk b db = (res, db) /\
     (status res = 400 \/ status res = 500)) \/
  (exists s, post_todos clk b db =
     (Response 201 (TodoItem (Todo (auto_increment db) s false (date_now clk))),
      Database (<[auto_increment db := Stored s 0 (current_timestamp clk)]> (todos db))
               (auto_increment db + 1))).
Proof.
  destruct b as [t c].
  destruct (post_todos_cases clk t c db)
    as [(_ & ->) | [(_ & _ & ->) | [(s & _ & _ & _ & ->) |
       [(s & _ & _ & _ & _ & ->) | (s & _ & _ & _ & _ & ->)]]]];
    try (left; eexists; split; [reflexivity | simpl; tauto]).
  right. now exists (trim s).
Qed.

(** X4: whatever the request, an answer other than 200 or 201 means the
    table and the identifier counter are exactly as before: validation
    failures, unknown ids and storage errors never write. *)
Theorem failed_request_writes_nothing req db :
  status (handle req db).1 <> 200 ->
  status (handle req db).1 <> 201 ->
  (handle req db).2 = db.
Proof.
  destruct req as [|id|clk b|id b|id|]; simpl; intros H200 H201; try reflexivity.
  - rewrite get_todo_eq. now destruct (todos db !! id).
  - destruct (post_todos_cases_short clk b db) as [(res & E & _) | (s & E)];
      rewrite E in *; [reflexivity | now destruct H201].
  - destruct (put_todo_cases id b db) as [(res & E & _) | (old & _ & E)];
      rewrite E in *; [reflexivity | now destruct H200].
  - rewrite delete_todo_eq in *. destruct (todos db !! id); [now destruct H200 | reflexivity].
Qed.

Lemma failed_request_writes_nothing_witness :
  (handle (PUT_todo 1 (Body (JString "  ") (JBool true))) Sample.db1).2 = Sample.db1.
Proof.
  apply (failed_request_writes_nothing (PUT_todo 1 (Body (JString "  ") (JBool true)))
           Sample.db1); vm_compute; discriminate.
Defined.


(** ** Round trips *)

(** X6: an item that create has just answered with can be read back: a
    get-by-id of the returned id answers 200 with the same id, label and
    flag.  Its creation timestamp is the database's clock reading, not the
    server's [new Date()] that the create answer carried. *)
Theorem create_then_get clk b db t db' :
  post_todos clk b db = (Response 201 (TodoItem t), db') ->
  get_todo (todo_id t) db' =
    (Response 200
       (TodoItem (Todo (todo_id t) (todo_title t) (todo_completed t)
                    (current_timestamp clk))), db') /\
  todo_completed t = false /\
  todo_created_at t = date_now clk.
Proof.
  destruct (post_todos_cases_short clk b db) as [(res & -> & H) | (s & ->)].
  - intros [= -> _]. simpl in H. lia.
  - intros [= <- <-]. simpl. rewrite get_todo_eq. simpl.
    now rewrite lookup_insert_eq.
Qed.

Lemma create_then_get_witness :
  get_todo 1 Sample.db1 =
    (Response 200 (TodoItem (Todo 1 "Buy milk" false 1700000000)), Sample.db1) /\
  false = false /\
  1700000000123 = 1700000000123.
Proof.
  apply (create_then_get Sample.clk Sample.buy_milk Sample.db0
           (Todo 1 "Buy milk" false 1700000000123) Sample.db1).
  reflexivity.
Defined.

(** X7: a successful update and a following get-by-id of the same id give
    the same answer, and the read leaves the table as the update left it. *)
Theorem update_then_get id b db :
  status (put_todo id b db).1 = 200 ->
  get_todo id (put_todo id b db).2 = put_todo id b db.
Proof.
  intros H. destruct (put_todo_cases id b db) as [(res & E & Hs) | (old & _ & E)];
    rewrite E in *; simpl in *; [lia|].
  rewrite get_todo_eq. simpl. now rewrite lookup_insert_eq.
Qed.

Lemma update_then_get_witness :
  get_todo 1 (put_todo 1 (Body (JString " Buy oat milk ") (JBool true)) Sample.db1).2 =
  put_todo 1 (Body (JString " Buy oat milk ") (JBool true)) Sample.db1.
Proof.
  apply (update_then_get 1 (Body (JString " Buy oat milk ") (JBool true)) Sample.db1).
  vm_compute. reflexivity.
Defined.

(** X8: once delete has been asked for an id, whatever it answered, a
    get-by-id of that id answers 404 and a second delete answers 404 and
    changes nothing. *)
Theorem delete_then_gone id db :
  let db' := (delete_todo id db).2 in
  get_todo id db' = (Response 404 (Error "Todo not found"), db') /\
  delete_todo id db' = (Response 404 (Error "Todo not found"), db').
Proof.
  cbv zeta.
  assert (H : todos (delete_todo id db).2 !! id = None).
  { rewrite delete_todo_eq. destruct (todos db !! id) eqn:E; simpl;
      [apply lookup_delete_eq | exact E]. }
  generalize dependent (delete_todo id db).2. intros db' H.
  now rewrite get_todo_eq, delete_todo_eq, H.
Qed.

(** X9: in a state the server can reach, deleting the item that a create
    has just made gives back the rows as they were before the create; only
    the identifier counter has moved on. *)
Theorem create_then_delete clk b db t db' :
  reachable db ->
  post_todos clk b db = (Response 201 (TodoItem t), db') ->
  (delete_todo (todo_id t) db').1 = Response 200 (Message "Todo deleted successfully") /\
  todos (delete_todo (todo_id t) db').2 = todos db /\
  auto_increment (delete_todo (todo_id t) db').2 = auto_increment db + 1.
Proof.
  intros Hdb. apply reachable_ids_below, ids_below_fresh in Hdb.
  destruct (post_todos_cases_short clk b db) as [(res & -> & H) | (s & ->)].
  - intros [= -> _]. simpl in H. lia.
  - intros [= <- <-]. simpl. rewrite delete_todo_eq. simpl.
    rewrite lookup_insert_eq. simpl. repeat split.
    now rewrite delete_insert_eq, delete_id.
Qed.

Lemma create_then_delete_witness :
  (delete_todo 2 db2).1 = Response 200 (Message "Todo deleted successfully") /\
  todos (delete_todo 2 db2).2 = todos Sample.db1 /\
  auto_increment (delete_todo 2 db2).2 = auto_increment Sample.db1 + 1.
Proof.
  apply (create_then_delete (Clocks 1700000060 1700000060456)
           (Body (JString "Walk the dog") JUndefined) Sample.db1
           (Todo 2 "Walk the dog" false 1700000060456) db2).
  - apply reachable_step, reachable_init.
  - vm_compute. reflexivity.
Defined.

(** ** Composition of updates *)

Lemma updated_idem old b : updated (updated old b) b = updated old b.
Proof. unfold updated. simpl. now destruct (body_title b), (defined (body_completed b)). Qed.

(** X10: update is idempotent: sending the same update a second time gives
    the same answer as the first and leaves the table as the first left
    it. *)
Theorem put_todo_idempotent id b db :
  put_todo id b (put_todo id b db).2 = put_todo id b db.
Proof.
  destruct (put_todo_cases id b db) as [(res & E & _) | (old & Hold & E)].
  - rewrite E. simpl. exact E.
  - rewrite E. simpl.
    rewrite (put_todo_outcome id b _ (updated old b)) by (simpl; apply lookup_insert_eq).
    rewrite (put_todo_outcome _ _ _ _ Hold) in E. cbv zeta in *.
    rewrite updated_idem. simpl. rewrite insert_insert_eq.
    destruct (body_title b); try discriminate.
    + destruct (defined (body_completed b)); [reflexivity | discriminate].
    + destruct (is_empty (trim s)); [discriminate|].
      destruct (fits_title (trim s)); [reflexivity | discriminate].
Qed.

(** X11: when an update of both fields succeeds, updating the label alone
    and then the flag alone ends with the same answer and the same table. *)
Theorem put_todo_fields_in_turn id l flag db :
  flag <> JUndefined ->
  status (put_todo id (Body (JString l) flag) db).1 = 200 ->
  put_todo id (Body JUndefined flag)
    (put_todo id (Body (JString l) JUndefined) db).2 =
  put_todo id (Body (JString l) flag) db.
Proof.
  intros Hf H.
  assert (Hd : defined flag = true) by (destruct flag; try reflexivity; now destruct Hf).
  destruct (todos db !! id) as [old|] eqn:Hold;
    [|rewrite put_todo_eq, Hold in H; simpl in H; lia].
  rewrite (put_todo_outcome _ _ _ _ Hold) in H.
  rewrite !(put_todo_outcome _ _ db _ Hold). cbv zeta in *.
  cbn [body_title body_completed] in *.
  destruct (is_empty (trim l)); [simpl in H; lia|].
  destruct (fits_title (trim l)); [|simpl in H; lia].
  simpl snd.
  rewrite (put_todo_outcome id _ _ (updated old (Body (JString l) JUndefined)))
    by (simpl; apply lookup_insert_eq).
  cbv zeta. cbn [body_title body_completed]. rewrite Hd.
  unfold updated. simpl. rewrite Hd. now rewrite insert_insert_eq.
Qed.

Lemma put_todo_fields_in_turn_witness :
  put_todo 1 (Body JUndefined (JBool true))
    (put_todo 1 (Body (JString "Buy oat milk") JUndefined) Sample.db1).2 =
  put_todo 1 (Body (JString "Buy oat milk") (JBool true)) Sample.db1.
Proof.
  apply (put_todo_fields_in_turn 1 "Buy oat milk" (JBool true) Sample.db1).
  - discriminate.
  - vm_compute. reflexivity.
Defined.

(** ** Identifiers over a session *)

Lemma auto_increment_mono req db :
  auto_increment db <= auto_increment (handle req db).2.
Proof.
  destruct req as [|id|clk b|id b|id|]; simpl; try lia.
  - rewrite get_todo_eq. destruct (todos db !! id); simpl; lia.
  - destruct (post_todos_cases_short clk b db) as [(res & -> & _) | (s & ->)]; simpl; lia.
  - destruct (put_todo_cases id b db) as [(res & -> & _) | (old & _ & ->)]; simpl; lia.
  - rewrite delete_todo_eq. destruct (todos db !! id); simpl; lia.
Qed.

Lemma run_auto_increment reqs db :
  auto_increment db <= auto_increment (run reqs db).
Proof.
  revert db. induction reqs as [|req rest IH]; intros db; simpl; [lia|].
  pose proof (auto_increment_mono req db). pose proof (IH (handle req db).2). lia.
Qed.

Lemma run_reachable reqs db : reachable db -> reachable (run reqs db).
Proof.
  revert db. induction reqs as [|req rest IH]; intros db Hdb; simpl; [exact Hdb|].
  apply IH. now apply reachable_step.
Qed.

(** X12: an identifier is never handed out twice: whatever requests the
    server answers in between, deletes of that very item included, a later
    create gets an id greater than every id that was stored before. *)
Theorem ids_never_reused db id reqs clk b t db' :
  reachable db ->
  is_Some (todos db !! id) ->
  post_todos clk b (run reqs db) = (Response 201 (TodoItem t), db') ->
  id < todo_id t.
Proof.
  intros Hdb [s Hs] E. apply reachable_ids_below in Hdb.
  pose proof (Hdb id s Hs) as Hid. pose proof (run_auto_increment reqs db) as Hmono.
  destruct (post_todos_cases_short clk b (run reqs db)) as [(res & E' & H) | (s' & E')];
    rewrite E' in E.
  - injection E as -> _. simpl in H. lia.
  - injection E as <- _. simpl. lia.
Qed.

Lemma ids_never_reused_witness :
  1 < todo_id (Todo 2 "Buy milk" false 1700000000123).
Proof.
  apply (ids_never_reused Sample.db1 1 [DELETE_todo 1] Sample.clk Sample.buy_milk
           (Todo 2 "Buy milk" false 1700000000123)
           (post_todos Sample.clk Sample.buy_milk (run [DELETE_todo 1] Sample.db1)).2).
  - apply reachable_step, reachable_init.
  - exists (Stored "Buy milk" 0 1700000000). vm_compute. reflexivity.
  - vm_compute. reflexivity.
Defined.

(** ** More invariants of the stored rows *)

Lemma handle_rows_all (P : stored -> Prop) :
  (forall s ct, P (Stored (trim s) 0 ct)) ->
  (forall old b, P old -> P (updated old b)) ->
  forall req db,
    (forall id s, todos db !! id = Some s -> P s) ->
    forall id s, todos (handle req db).2 !! id = Some s -> P s.
Proof.
  intros Hnew Hupd req db Hdb.
  destruct req as [|k|clk [t c]|k b|k|]; simpl; try exact Hdb.
  - rewrite get_todo_eq. now destruct (todos db !! k).
  - destruct (post_todos_cases clk t c db)
      as [(_ & ->) | [(_ & _ & ->) | [(s & _ & _ & _ & ->) |
         [(s & _ & _ & _ & _ & ->) | (s & _ & _ & _ & _ & ->)]]]]; try exact Hdb.
    intros id s'. simpl. rewrite lookup_insert. case_decide.
    + intros [= <-]. apply Hnew.
    + apply Hdb.
  - destruct (put_todo_cases k b db) as [(res & -> & _) | (old & Hold & ->)];
      [exact Hdb|].
    intros id s'. simpl. rewrite lookup_insert. case_decide.
    + intros [= <-]. apply Hupd. exact (Hdb k old Hold).
    + apply Hdb.
  - rewrite delete_todo_eq. destruct (todos db !! k); [|exact Hdb].
    intros id s'. simpl. rewrite lookup_delete. case_decide; [discriminate | apply Hdb].
Qed.

Lemma reachable_rows_all (P : stored -> Prop) :
  (forall s ct, P (Stored (trim s) 0 ct)) ->
  (forall old b, P old -> P (updated old b)) ->
  forall db, reachable db -> forall id s, todos db !! id = Some s -> P s.
Proof.
  intros Hnew Hupd db Hdb. induction Hdb as [|req db _ IH].
  - intros id s. simpl. now rewrite lookup_empty.
  - now apply handle_rows_all.
Qed.

(** X13: in every state the server reaches, every stored label is exactly
    its own trimmed form: nothing is ever stored with leading or trailing
    white space. *)
Theorem stored_labels_trimmed db id s :
  reachable db -> todos db !! id = Some s -> trim (title s) = title s.
Proof.
  intros Hdb. revert id s.
  apply (reachable_rows_all (fun s => trim (title s) = title s)); [| |exact Hdb].
  - intros s ct. simpl. apply trim_idem.
  - intros old b Hold. unfold updated. simpl.
    destruct (body_title b); try exact Hold. apply trim_idem.
Qed.

Lemma stored_labels_trimmed_witness :
  trim (title (Stored "Walk the dog" 0 1700000060)) = "Walk the dog".
Proof.
  apply (stored_labels_trimmed db2 2 (Stored "Walk the dog" 0 1700000060)).
  - apply reachable_step, reachable_step, reachable_init.
  - vm_compute. reflexivity.
Defined.

(** X14: in every state the server reaches, the stored flag of every item
    is 0 or 1, so the boolean an answer shows determines the stored value. *)
Theorem stored_flags_boolean db id s :
  reachable db -> todos db !! id = Some s ->
  completed s = (if Boolean (completed s) then 1 else 0).
Proof.
  intros Hdb. revert id s.
  apply (reachable_rows_all
           (fun s => completed s = (if Boolean (completed s) then 1 else 0)));
    [| |exact Hdb].
  - reflexivity.
  - intros old b Hold. unfold updated. simpl.
    destruct (defined (body_completed b)); [|exact Hold].
    now destruct (truthy (body_completed b)).
Qed.

Lemma stored_flags_boolean_witness :
  completed (Stored "Buy milk" 0 1700000000) =
  (if Boolean (completed (Stored "Buy milk" 0 1700000000)) then 1 else 0).
Proof.
  apply (stored_flags_boolean Sample.db1 1 (Stored "Buy milk" 0 1700000000)).
  - apply reachable_step, reachable_init.
  - vm_compute. reflexivity.
Defined.

(** X15: in a state the server reaches, a stored item is left exactly as it
    is by every request other than an update or a delete addressed to its
    id; and no request at all changes the creation timestamp of an item
    that is still stored afterwards. *)
Theorem stored_item_frame req db id s :
  reachable db ->
  todos db !! id = Some s ->
  ((forall b, req <> PUT_todo id b) -> req <> DELETE_todo id ->
     todos (handle req db).2 !! id = Some s) /\
  (forall s', todos (handle req db).2 !! id = Some s' -> created_at s' = created_at s).
Proof.
  intros Hdb Hs. apply reachable_ids_below in Hdb. pose proof (Hdb id s Hs) as Hid.
  destruct req as [|k|clk b|k b|k|]; simpl.
  - split; [now intros _ _ | intros s' E; congruence].
  - rewrite get_todo_eq. destruct (todos db !! k); simpl;
      (split; [now intros _ _ | intros s' E; congruence]).
  - destruct (post_todos_cases_short clk b db) as [(res & -> & _) | (t & ->)]; simpl.
    + split; [now intros _ _ | intros s' E; congruence].
    + rewrite lookup_insert_ne by lia.
      split; [now intros _ _ | intros s' E; congruence].
  - destruct (put_todo_cases k b db) as [(res & -> & _) | (old & Hold & ->)]; simpl.
    + split; [now intros _ _ | intros s' E; congruence].
    + rewrite lookup_insert. case_decide as Hk.
      * subst k. split; [intros Hb _; now destruct (Hb b)|].
        intros s' [= <-]. simpl. congruence.
      * split; [now intros _ _ | intros s' E; congruence].
  - rewrite delete_todo_eq. destruct (todos db !! k) eqn:Hk; simpl.
    + rewrite lookup_delete. case_decide as Hkid.
      * subst k. split; [intros _ Hd; now destruct Hd | discriminate].
      * split; [now intros _ _ | intros s' E; congruence].
    + split; [now intros _ _ | intros s' E; congruence].
  - split; [now intros _ _ | intros s' E; congruence].
Qed.

Lemma stored_item_frame_witness :
  ((forall b, PUT_todo 2 (Body JUndefined (JBool true)) <> PUT_todo 1 b) ->
   PUT_todo 2 (Body JUndefined (JBool true)) <> DELETE_todo 1 ->
   todos (handle (PUT_todo 2 (Body JUndefined (JBool true))) db2).2 !! 1 =
     Some (Stored "Buy milk" 0 1700000000)) /\
  (forall s', todos (handle (PUT_todo 2 (Body JUndefined (JBool true))) db2).2 !! 1 = Some s' ->
     created_at s' = created_at (Stored "Buy milk" 0 1700000000)).
Proof.
  apply (stored_item_frame (PUT_todo 2 (Body JUndefined (JBool true))) db2 1
           (Stored "Buy milk" 0 1700000000)).
  - apply reachable_step, reachable_step, reachable_init.
  - vm_compute. reflexivity.
Defined.

(** X16: a request brings a new identifier into the table only if it is a
    create answered with 201; the identifier is then the counter's value,
    and the new row has flag 0 and the database clock's timestamp. *)
Theorem new_item_only_by_create req db id s :
  todos db !! id = None ->
  todos (handle req db).2 !! id = Some s ->
  exists clk b,
    req = POST_todos clk b /\ status (handle req db).1 = 201 /\
    id = auto_increment db /\ completed s = 0 /\
    created_at s = current_timestamp clk.
Proof.
  intros Hnone.
  destruct req as [|k|clk b|k b|k|]; simpl; try congruence.
  - rewrite get_todo_eq. destruct (todos db !! k); simpl; congruence.
  - destruct (post_todos_cases_short clk b db) as [(res & -> & _) | (t & ->)]; simpl;
      [congruence|].
    rewrite lookup_insert. case_decide as Hk; [|congruence].
    intros [= <-]. exists clk, b. now repeat split.
  - destruct (put_todo_cases k b db) as [(res & -> & _) | (old & Hold & ->)]; simpl;
      [congruence|].
    rewrite lookup_insert. case_decide as Hk; congruence.
  - rewrite delete_todo_eq. destruct (todos db !! k); simpl; [|congruence].
    rewrite lookup_delete. case_decide; congruence.
Qed.

Lemma new_item_only_by_create_witness :
  exists clk b,
    POST_todos (Clocks 1700000060 1700000060456)
      (Body (JString "Walk the dog") JUndefined) = POST_todos clk b /\
    status (handle (POST_todos (Clocks 1700000060 1700000060456)
                      (Body (JString "Walk the dog") JUndefined)) Sample.db1).1 = 201 /\
    2 = auto_increment Sample.db1 /\
    completed (Stored "Walk the dog" 0 1700000060) = 0 /\
    created_at (Stored "Walk the dog" 0 1700000060) = current_timestamp clk.
Proof.
  apply (new_item_only_by_create
           (POST_todos (Clocks 1700000060 1700000060456)
              (Body (JString "Walk the dog") JUndefined))
           Sample.db1 2 (Stored "Walk the dog" 0 1700000060)).
  - vm_compute. reflexivity.
  - vm_compute. reflexivity.
Defined.

(** ** More about list-all *)

Lemma get_todos_elem_of db t :
  t ∈ map todo_of_row (merge_sort created_at_desc (row_of <$> map_to_list (todos db))) <->
  exists s, todos db !! todo_id t = Some s /\
    t = Todo (todo_id t) (title s) (Boolean (completed s)) (created_at s).
Proof.
  change (map todo_of_row ?x) with (todo_of_row <$> x).
  rewrite list_elem_of_fmap. split.
  - intros (r & -> & Hr). apply rows_elem_of in Hr as (id & s & Hs & ->).
    now exists s.
  - intros (s & Hs & E). exists (row_of (todo_id t, s)). split; [exact E|].
    apply rows_elem_of. now exists (todo_id t), s.
Qed.

(** X17: list-all and get-by-id agree: an item is in the list that list-all
    answers exactly when get-by-id of its id answers 200 with that very
    item. *)
Theorem list_agrees_with_get db l t :
  json (get_todos db).1 = TodoList l ->
  (t ∈ l <-> get_todo (todo_id t) db = (Response 200 (TodoItem t), db)).
Proof.
  rewrite get_todos_eq. simpl. intros [= <-].
  rewrite get_todos_elem_of, get_todo_eq. split.
  - intros (s & -> & E). now rewrite <- E.
  - destruct (todos db !! todo_id t) as [s|]; [|discriminate].
    intros [= E]. exists s. split; [reflexivity|]. now rewrite <- E.
Qed.

Lemma list_agrees_with_get_witness :
  Todo 1 "Buy milk" false 1700000000 ∈
    [Todo 2 "Walk the dog" false 1700000060; Todo 1 "Buy milk" false 1700000000] <->
  get_todo 1 db2 = (Response 200 (TodoItem (Todo 1 "Buy milk" false 1700000000)), db2).
Proof.
  apply (list_agrees_with_get db2
           [Todo 2 "Walk the dog" false 1700000060; Todo 1 "Buy milk" false 1700000000]
           (Todo 1 "Buy milk" false 1700000000)).
  vm_compute. reflexivity.
Defined.

Lemma get_todos_ids_NoDup db :
  NoDup (todo_id <$>
    map todo_of_row (merge_sort created_at_desc (row_of <$> map_to_list (todos db)))).
Proof.
  change (map todo_of_row ?x) with (todo_of_row <$> x).
  rewrite <- list_fmap_compose, merge_sort_Permutation, <- list_fmap_compose.
  apply (NoDup_fst_map_to_list (todos db)).
Qed.

(** X18: when the stored creation timestamps grow strictly with the
    identifiers, the list that list-all answers is in strictly descending
    order of identifier. *)
Theorem get_todos_descending_ids db l i j a b :
  chronological db ->
  json (get_todos db).1 = TodoList l ->
  (i < j)%nat -> l !! i = Some a -> l !! j = Some b ->
  todo_id b < todo_id a.
Proof.
  intros Hc. rewrite get_todos_eq. simpl. intros [= <-] Hij Ha Hb.
  assert (Hina : a ∈ map todo_of_row
            (merge_sort created_at_desc (row_of <$> map_to_list (todos db))))
    by (eapply list_elem_of_lookup_2; exact Ha).
  assert (Hinb : b ∈ map todo_of_row
            (merge_sort created_at_desc (row_of <$> map_to_list (todos db))))
    by (eapply list_elem_of_lookup_2; exact Hb).
  apply get_todos_elem_of in Hina as (sa & Hsa & Ea).
  apply get_todos_elem_of in Hinb as (sb & Hsb & Eb).
  assert (Hle : todo_created_at b <= todo_created_at a).
  { change (map todo_of_row ?x) with (todo_of_row <$> x) in Ha, Hb.
    rewrite list_lookup_fmap in Ha, Hb.
    destruct (_ !! i) as [ra|] eqn:Hra; [|discriminate].
    destruct (_ !! j) as [rb|] eqn:Hrb; [|discriminate].
    injection Ha as <-. injection Hb as <-. simpl.
    exact (StronglySorted_lookup _ _ i j ra rb (rows_sorted db) Hij Hra Hrb). }
  rewrite Ea, Eb in Hle. simpl in Hle.
  destruct (Z.lt_trichotomy (todo_id a) (todo_id b)) as [Hlt | [Heq | Hgt]].
  - pose proof (Hc _ _ _ _ Hsa Hsb Hlt). lia.
  - exfalso.
    pose proof (get_todos_ids_NoDup db) as Hnd.
    assert (i = j); [|lia].
    eapply NoDup_lookup;
      [exact Hnd
      | rewrite list_lookup_fmap, Ha; reflexivity
      | rewrite list_lookup_fmap, Hb; simpl; now rewrite Heq].
  - exact Hgt.
Qed.

Lemma db1_todos :
  todos Sample.db1 = <[1 := Stored "Buy milk" 0 1700000000]> ∅.
Proof. reflexivity. Qed.

Lemma db2_todos :
  todos db2 =
  <[2 := Stored "Walk the dog" 0 1700000060]> (<[1 := Stored "Buy milk" 0 1700000000]> ∅).
Proof. reflexivity. Qed.

Lemma db2_chronological : chronological db2.
Proof.
  intros i j si sj. rewrite db2_todos, !lookup_insert, !lookup_empty.
  repeat case_decide; intros Hi Hj Hij; simplify_eq; simpl; lia.
Qed.

Lemma get_todos_descending_ids_witness :
  todo_id (Todo 1 "Buy milk" false 1700000000) <
  todo_id (Todo 2 "Walk the dog" false 1700000060).
Proof.
  apply (get_todos_descending_ids db2
           [Todo 2 "Walk the dog" false 1700000060; Todo 1 "Buy milk" false 1700000000]
           0 1).
  - exact db2_chronological.
  - vm_compute. reflexivity.
  - lia.
  - reflexivity.
  - reflexivity.
Defined.

(** X19: the order of timestamps by identifier is kept by every request, as
    long as each create reads a database clock strictly later than every
    stored creation timestamp. *)
Theorem chronological_preserved req db :
  reachable db ->
  chronological db ->
  (forall clk b, req = POST_todos clk b ->
     forall id s, todos db !! id = Some s -> created_at s < current_timestamp clk) ->
  chronological (handle req db).2.
Proof.
  intros Hdb Hc Hclk. apply reachable_ids_below in Hdb.
  destruct req as [|k|clk b|k b|k|]; simpl; try exact Hc.
  - rewrite get_todo_eq. now destruct (todos db !! k).
  - destruct (post_todos_cases_short clk b db) as [(res & -> & _) | (t & ->)];
      [exact Hc|].
    intros i j si sj. simpl. rewrite !lookup_insert.
    repeat case_decide; intros Hi Hj Hij; simplify_eq; simpl;
      first
        [ lia
        | match goal with
          | H : todos db !! _ = Some _ |- _ => pose proof (Hdb _ _ H); lia
          end
        | match goal with
          | H : todos db !! _ = Some ?s |- created_at ?s < _ =>
              exact (Hclk clk b eq_refl _ _ H)
          end
        | eapply Hc; eassumption ].
  - destruct (put_todo_cases k b db) as [(res & -> & _) | (old & Hold & ->)];
      [exact Hc|].
    intros i j si sj. simpl. rewrite !lookup_insert.
    repeat case_decide; intros Hi Hj Hij; simplify_eq; simpl;
      first [ lia | eapply Hc; eassumption ].
  - rewrite delete_todo_eq. destruct (todos db !! k); [|exact Hc].
    intros i j si sj. simpl. rewrite !lookup_delete.
    repeat case_decide; intros Hi Hj Hij; simplify_eq.
    eapply Hc; eassumption.
Qed.

Lemma chronological_preserved_witness : chronological db2.
Proof.
  apply (chronological_preserved
           (POST_todos (Clocks 1700000060 1700000060456)
              (Body (JString "Walk the dog") JUndefined)) Sample.db1).
  - apply reachable_step, reachable_init.
  - intros i j si sj. rewrite db1_todos, !lookup_insert, !lookup_empty.
    repeat case_decide; intros Hi Hj Hij; simplify_eq; lia.
  - intros clk b [= <- _] id s. rewrite db1_todos, lookup_insert, lookup_empty.
    case_decide; intros Hs; simplify_eq. simpl. lia.
Defined.

(** * The client *)

Import App.

(** ** The filter and the rendering *)

Lemma filter_partition {A} (p : A -> bool) (l : list A) :
  (List.filter (fun x => negb (p x)) l ++ List.filter p l)%list ≡ₚ l.
Proof.
  induction l as [|x l IH]; simpl; [reflexivity|].
  destruct (p x); simpl.
  - rewrite <- Permutation_middle. now constructor.
  - now constructor.
Qed.

(** X20: the views of the mirror: the 'completed' view holds exactly the
    items whose flag is true; the 'active' and the 'completed' view together
    are a rearrangement of the mirror, so no item is lost or shown in both;
    and every other filter value, 'all' included, shows the whole mirror. *)
Theorem filter_views (l : list todo) :
  (forall t, In t (getFilteredTodos "completed" l) <-> In t l /\ todo_completed t = true) /\
  (getFilteredTodos "active" l ++ getFilteredTodos "completed" l)%list ≡ₚ l /\
  (forall f, f <> "active" -> f <> "completed" -> getFilteredTodos f l = l).
Proof.
  split; [|split].
  - intros t. unfold getFilteredTodos. simpl. apply filter_In.
  - unfold getFilteredTodos. simpl. apply (filter_partition todo_completed).
  - intros f Ha Hc. unfold getFilteredTodos.
    apply String.eqb_neq in Ha, Hc. now rewrite Ha, Hc.
Qed.

Lemma renderTodos_todos s : todos (renderTodos s) = todos s.
Proof. unfold renderTodos. now destruct (length _ =? 0)%nat. Qed.

Lemma renderTodos_currentFilter s : currentFilter (renderTodos s) = currentFilter s.
Proof. unfold renderTodos. now destruct (length _ =? 0)%nat. Qed.

Lemma length_zero_nil {A} (l : list A) : (length l =? 0)%nat = true <-> l = [].
Proof. destruct l; simpl; split; congruence. Qed.

Lemma renderTodos_items s :
  todoList_items (document (renderTodos s)) =
  getFilteredTodos (currentFilter s) (todos s).
Proof.
  unfold renderTodos.
  destruct (length (getFilteredTodos _ _) =? 0)%nat eqn:Hf; [|reflexivity].
  apply length_zero_nil in Hf. now rewrite Hf.
Qed.

Lemma renderTodos_panels s :
  loadingState_hidden (document (renderTodos s)) = true /\
  errorState_hidden (document (renderTodos s)) = true.
Proof.
  unfold renderTodos. destruct (length (getFilteredTodos _ _) =? 0)%nat;
    destruct (0 <? length (todos s))%nat; now split.
Qed.

(** X21: after every rendering the page shows the mirror under the current
    filter and nothing else: the list holds exactly the filtered items, the
    loading and error panels are hidden, the empty-state panel is shown
    exactly when the list is empty, the statistics are hidden exactly when
    the mirror is empty, and for a non-empty mirror the counter reads the
    number of items of the whole mirror whose flag is false and the
    clear-completed button is hidden exactly when no item is completed.
    Rendering changes neither the mirror nor the filter, and rendering
    twice is rendering once. *)
Theorem renderTodos_view s :
  let s' := renderTodos s in
  let d := document s' in
  todos s' = todos s /\ currentFilter s' = currentFilter s /\
  todoList_items d = getFilteredTodos (currentFilter s) (todos s) /\
  loadingState_hidden d = true /\ errorState_hidden d = true /\
  (emptyState_hidden d = false <-> todoList_items d = []) /\
  (statsSection_hidden d = true <-> todos s = []) /\
  (todos s <> [] ->
     itemsLeft_text d =
       items_left (length (List.filter (fun t => negb (todo_completed t)) (todos s))) /\
     (clearCompletedBtn_hidden d = true <->
        forall t, In t (todos s) -> todo_completed t = false)) /\
  renderTodos s' = s'.
Proof.
  cbv zeta.
  assert (Hitems : todoList_items (document (renderTodos s)) =
                   getFilteredTodos (currentFilter s) (todos s)).
  { unfold renderTodos.
    destruct (length (getFilteredTodos _ _) =? 0)%nat eqn:Hf; [|reflexivity].
    apply length_zero_nil in Hf. now rewrite Hf. }
  split; [apply renderTodos_todos|]. split; [apply renderTodos_currentFilter|].
  split; [exact Hitems|].
  split; [unfold renderTodos; destruct (length (getFilteredTodos _ _) =? 0)%nat;
          destruct (0 <? length (todos s))%nat; reflexivity|].
  split; [unfold renderTodos; destruct (length (getFilteredTodos _ _) =? 0)%nat;
          destruct (0 <? length (todos s))%nat; reflexivity|].
  split.
  { rewrite Hitems. unfold renderTodos.
    destruct (length (getFilteredTodos _ _) =? 0)%nat eqn:Hf;
      destruct (0 <? length (todos s))%nat; simpl.
    1,2: apply length_zero_nil in Hf; now rewrite Hf.
    all: split; [discriminate|]; intros E; rewrite E in Hf; discriminate. }
  split.
  { unfold renderTodos.
    destruct (length (getFilteredTodos _ _) =? 0)%nat; simpl;
      destruct (todos s); simpl; split; congruence. }
  split.
  { intros Hne. unfold renderTodos.
    assert (H0 : (0 <? length (todos s))%nat = true)
      by (destruct (todos s); [congruence | reflexivity]).
    destruct (length (getFilteredTodos _ _) =? 0)%nat; simpl; rewrite H0; simpl;
      (split; [reflexivity|]); rewrite length_zero_nil;
      (split; [intros E t Ht | intros H]).
    all: try (destruct (todo_completed t) eqn:Hc; [|reflexivity];
              assert (Hin : In t (List.filter (fun t => todo_completed t) (todos s)))
                by (apply filter_In; now split);
              rewrite E in Hin; destruct Hin).
    all: destruct (List.filter (fun t => todo_completed t) (todos s)) as [|x r] eqn:E;
      [reflexivity|];
      assert (Hin : In x (List.filter (fun t => todo_completed t) (todos s)))
        by (rewrite E; now left);
      apply filter_In in Hin as [Hin Hc]; rewrite (H x Hin) in Hc; discriminate. }
  unfold renderTodos.
  destruct (length (getFilteredTodos (currentFilter s) (todos s)) =? 0)%nat eqn:Hf;
    cbn [todos currentFilter document]; rewrite Hf;
    destruct (0 <? length (todos s))%nat;
    destruct (length (todos s) =? 0)%nat;
    destruct (String.eqb (currentFilter s) "active");
    destruct (String.eqb (currentFilter s) "completed"); reflexivity.
Qed.

(** ** Searching and patching the mirror *)

Lemma findIndex_None {A} (p : A -> bool) l : findIndex p l = None <-> List.find p l = None.
Proof.
  induction l as [|x l IH]; simpl; [tauto|].
  destruct (p x); [split; discriminate|].
  destruct (findIndex p l); simpl.
  - split; [discriminate|]. intros H. apply IH in H. discriminate.
  - split; [intros _; now apply IH | reflexivity].
Qed.

Lemma findIndex_Some {A} (p : A -> bool) l i :
  findIndex p l = Some i ->
  exists x, l !! i = Some x /\ p x = true /\ List.find p l = Some x.
Proof.
  revert i. induction l as [|x l IH]; simpl; intros i; [discriminate|].
  destruct (p x) eqn:Hp.
  - intros [= <-]. now exists x.
  - destruct (findIndex p l) as [k|]; simpl; [|discriminate].
    intros [= <-]. exact (IH k eq_refl).
Qed.

Lemma find_insert_hit {A} (p : A -> bool) l i u :
  findIndex p l = Some i -> p u = true -> List.find p (<[i := u]> l) = Some u.
Proof.
  revert i. induction l as [|x l IH]; simpl; intros i; [discriminate|].
  destruct (p x) eqn:Hp.
  - intros [= <-] Hu. simpl. now rewrite Hu.
  - destruct (findIndex p l) as [k|]; simpl; [|discriminate].
    intros [= <-] Hu. simpl. rewrite Hp. now apply IH.
Qed.

Lemma find_insert_miss {A} (q : A -> bool) l i u x :
  l !! i = Some x -> q x = false -> q u = false ->
  List.find q (<[i := u]> l) = List.find q l.
Proof.
  revert i. induction l as [|y l IH]; intros i; [now rewrite lookup_nil|].
  destruct i as [|i]; simpl.
  - intros [= ->] Hx Hu. now rewrite Hx, Hu.
  - intros Hi Hx Hu. destruct (q y); [reflexivity|]. now apply IH.
Qed.

Lemma ids_insert (l : list todo) (i : nat) u x :
  l !! i = Some x -> todo_id u = todo_id x ->
  todo_id <$> <[i := u]> l = todo_id <$> l.
Proof.
  intros Hi Hu. rewrite list_fmap_insert, Hu.
  apply list_insert_id. now rewrite list_lookup_fmap, Hi.
Qed.

Lemma find_filter_other (l : list todo) id id' :
  id' <> id ->
  List.find (fun t => todo_id t =? id')
    (List.filter (fun t => negb (todo_id t =? id)) l) =
  List.find (fun t => todo_id t =? id') l.
Proof.
  intros Hne. induction l as [|x l IH]; simpl; [reflexivity|].
  destruct (todo_id x =? id) eqn:Hx; simpl.
  - apply Z.eqb_eq in Hx.
    assert (H : (todo_id x =? id') = false) by (apply Z.eqb_neq; lia).
    now rewrite H.
  - destruct (todo_id x =? id'); [reflexivity | exact IH].
Qed.

Lemma find_filter_same (l : list todo) id :
  List.find (fun t => todo_id t =? id)
    (List.filter (fun t => negb (todo_id t =? id)) l) = None.
Proof.
  induction l as [|x l IH]; simpl; [reflexivity|].
  destruct (todo_id x =? id) eqn:Hx; simpl; [exact IH|]. now rewrite Hx.
Qed.

Lemma ids_filter_NoDup (p : todo -> bool) (l : list todo) :
  NoDup (todo_id <$> l) -> NoDup (todo_id <$> List.filter p l).
Proof.
  induction l as [|x l IH]; simpl; [trivial|].
  rewrite NoDup_cons. intros [Hx Hl]. destruct (p x); simpl; [|now apply IH].
  apply NoDup_cons. split; [|now apply IH].
  intros Hin. apply Hx. apply list_elem_of_fmap in Hin as (y & -> & Hy).
  apply list_elem_of_fmap. exists y. split; [reflexivity|].
  apply list_elem_of_In. apply list_elem_of_In in Hy. now apply filter_In in Hy.
Qed.

Lemma find_id_None (l : list todo) id :
  List.find (fun t => todo_id t =? id) l = None <-> id ∉ todo_id <$> l.
Proof.
  induction l as [|x l IH]; simpl.
  - split; [intros _; apply not_elem_of_nil | reflexivity].
  - rewrite not_elem_of_cons. destruct (todo_id x =? id) eqn:Hx.
    + apply Z.eqb_eq in Hx. split; [discriminate | intros [Hne _]; congruence].
    + apply Z.eqb_neq in Hx. rewrite IH. split; [now split | tauto].
Qed.

Lemma find_id_Some (l : list todo) id t :
  List.find (fun t => todo_id t =? id) l = Some t -> t ∈ l /\ todo_id t = id.
Proof.
  intros H. apply find_some in H as [Hin Hid].
  split; [now apply list_elem_of_In | now apply Z.eqb_eq].
Qed.

(** ** The mirror in step with the table *)

Lemma sync_listed db f d : in_sync (World (State (listed db) f d) db).
Proof.
  split; simpl; [apply get_todos_ids_NoDup|].
  intros id. destruct (List.find _ (listed db)) as [t|] eqn:Hfind.
  - apply find_id_Some in Hfind as [Hin <-].
    apply get_todos_elem_of in Hin as (s & -> & E). simpl. now rewrite E.
  - destruct (Db.todos db !! id) as [s|] eqn:Hs; [|reflexivity].
    apply find_id_None in Hfind. exfalso. apply Hfind.
    apply list_elem_of_fmap.
    exists (Todo id (title s) (Boolean (completed s)) (created_at s)).
    split; [reflexivity|]. apply get_todos_elem_of. now exists s.
Qed.

Lemma sync_cons l f d db f' d' new s ai :
  in_sync (World (State l f d) db) ->
  Db.todos db !! todo_id new = None ->
  seen new = kept (todo_id new) s ->
  in_sync (World (State (new :: l) f' d')
             (Database (<[todo_id new := s]> (Db.todos db)) ai)).
Proof.
  intros [Hnd Hfind] Hfresh Hseen. simpl in *. split; simpl.
  - apply NoDup_cons. split; [|exact Hnd].
    apply find_id_None. specialize (Hfind (todo_id new)).
    rewrite Hfresh in Hfind. now destruct (List.find _ l).
  - intros id. rewrite lookup_insert. destruct (todo_id new =? id) eqn:Hid.
    + apply Z.eqb_eq in Hid. subst id. rewrite decide_True by reflexivity.
      simpl. now rewrite Hseen.
    + apply Z.eqb_neq in Hid. rewrite decide_False by exact Hid. apply Hfind.
Qed.

Lemma sync_delete l f d db f' d' id ai :
  in_sync (World (State l f d) db) ->
  in_sync (World (State (List.filter (fun t => negb (todo_id t =? id)) l) f' d')
             (Database (delete id (Db.todos db)) ai)).
Proof.
  intros [Hnd Hfind]. simpl in *. split; simpl.
  - now apply ids_filter_NoDup.
  - intros id'. rewrite lookup_delete. case_decide as Hid.
    + subst id'. now rewrite find_filter_same.
    + rewrite find_filter_other by congruence. apply Hfind.
Qed.

Lemma sync_update l f d db f' d' id u new ai :
  in_sync (World (State l f d) db) ->
  is_Some (Db.todos db !! id) ->
  todo_id u = id ->
  seen u = kept id new ->
  in_sync (World (State (match findIndex (fun t => todo_id t =? id) l with
                         | Some i => <[i := u]> l
                         | None => l
                         end) f' d')
             (Database (<[id := new]> (Db.todos db)) ai)).
Proof.
  intros [Hnd Hfind] [old Hold] Hu Hseen. simpl in *.
  destruct (findIndex (fun t => todo_id t =? id) l) as [i|] eqn:Hi.
  - destruct (findIndex_Some _ _ _ Hi) as (x & Hx & Hpx & _).
    apply Z.eqb_eq in Hpx. split; simpl.
    + rewrite (ids_insert l i u x Hx) by congruence. exact Hnd.
    + intros id'. rewrite lookup_insert. case_decide as Hid.
      * subst id'. rewrite (find_insert_hit _ _ _ _ Hi) by (apply Z.eqb_eq; exact Hu).
        simpl. now rewrite Hseen.
      * rewrite (find_insert_miss _ l i u x Hx) by (apply Z.eqb_neq; congruence).
        apply Hfind.
  - exfalso. apply findIndex_None in Hi. specialize (Hfind id).
    rewrite Hi, Hold in Hfind. discriminate.
Qed.

(** ** The calls of the API in closed form *)

Lemma fetchTodos_eq w :
  fetchTodos w =
  Some (World (renderTodos
                 (State (listed (server w)) (currentFilter (browser w))
                    (showLoading (document (browser w)))))
              (server w)).
Proof. reflexivity. Qed.

Lemma deleteTodo_eq id w :
  deleteTodo id w =
  match Db.todos (server w) !! id with
  | Some _ =>
      (true,
       World (renderTodos
                (State (List.filter (fun t => negb (todo_id t =? id)) (todos (browser w)))
                   (currentFilter (browser w)) (document (browser w))))
             (Database (delete id (Db.todos (server w))) (auto_increment (server w))))
  | None =>
      (false,
       World (State (todos (browser w)) (currentFilter (browser w))
                (showTemporaryError "Failed to delete todo" (document (browser w))))
             (server w))
  end.
Proof.
  unfold deleteTodo. cbn [handle]. rewrite delete_todo_eq.
  now destruct (Db.todos (server w) !! id).
Qed.

Lemma createTodo_eq clk title w :
  createTodo clk title w =
  if is_empty (trim title) || negb (fits_title (trim title)) then
    Some (false,
          World (State (todos (browser w)) (currentFilter (browser w))
                   (showTemporaryError "Failed to create todo" (document (browser w))))
                (server w))
  else
    Some (true,
          World (renderTodos
                   (State (Todo (auto_increment (server w)) (trim title) false (date_now clk)
                             :: todos (browser w))
                      (currentFilter (browser w)) (document (browser w))))
                (Database
                   (<[auto_increment (server w) :=
                        Stored (trim title) 0 (current_timestamp clk)]>
                      (Db.todos (server w)))
                   (auto_increment (server w) + 1))).
Proof.
  unfold createTodo. cbn [handle]. rewrite post_todos_text.
  destruct (is_empty (trim title)); [reflexivity|].
  now destruct (fits_title (trim title)).
Qed.

Lemma updateTodo_ok id b w u db :
  put_todo id b (server w) = (Response 200 (TodoItem u), db) ->
  updateTodo id b w =
  Some (true,
        World (renderTodos
                 (State (match findIndex (fun t => todo_id t =? id) (todos (browser w)) with
                         | Some i => <[i := u]> (todos (browser w))
                         | None => todos (browser w)
                         end)
                    (currentFilter (browser w)) (document (browser w))))
              db).
Proof. intros E. unfold updateTodo. cbn [handle]. now rewrite E. Qed.

Lemma updateTodo_failed id b w :
  status (put_todo id b (server w)).1 <> 200 ->
  updateTodo id b w =
  Some (false,
        World (renderTodos
                 (State (listed (server w)) (currentFilter (browser w))
                    (showLoading
                       (showTemporaryError "Failed to update todo"
                          (document (browser w))))))
              (server w)).
Proof.
  intros Hst. unfold updateTodo. cbn [handle].
  destruct (put_todo_cases id b (server w))
    as [(res & E & [H | [H | H]]) | (old & _ & E)]; rewrite E in *;
    try (destruct res as [st j]; simpl in H; subst st; reflexivity).
  now destruct Hst.
Qed.

(** ** What the calls do to the mirror *)

Lemma fetchTodos_sync w f d :
  in_sync (World (renderTodos (State (listed (server w)) f d)) (server w)).
Proof.
  unfold in_sync. cbn [browser server]. rewrite renderTodos_todos.
  apply (sync_listed (server w) f d).
Qed.

(** X22: fetching replaces the mirror, whatever it held, by the list that
    list-all answers; the mirror then agrees with the table, the page shows
    that list under the current filter with the loading and error panels
    hidden, and neither the table nor the filter has changed. *)
Theorem fetchTodos_mirror w :
  exists w',
    fetchTodos w = Some w' /\
    server w' = server w /\
    todos (browser w') = listed (server w) /\
    currentFilter (browser w') = currentFilter (browser w) /\
    todoList_items (document (browser w')) =
      getFilteredTodos (currentFilter (browser w)) (listed (server w)) /\
    loadingState_hidden (document (browser w')) = true /\
    errorState_hidden (document (browser w')) = true /\
    in_sync w'.
Proof.
  eexists. split; [apply fetchTodos_eq|]. cbn [server browser].
  split; [reflexivity|]. split; [now rewrite renderTodos_todos|].
  split; [now rewrite renderTodos_currentFilter|].
  split; [now rewrite renderTodos_items|].
  split; [apply renderTodos_panels|]. split; [apply renderTodos_panels|].
  apply fetchTodos_sync.
Qed.

(** X23: a delete from the client, by the table: when the id is stored the
    call succeeds, the row is gone and the mirror loses every item with that
    id and keeps the others in order; when the id is not stored (the mirror
    is stale) the call fails, a toast is shown, and the mirror keeps what it
    had, the stale item included. *)
Theorem deleteTodo_mirror id w :
  let r := deleteTodo id w in
  (is_Some (Db.todos (server w) !! id) ->
     r.1 = true /\
     todos (browser r.2) =
       List.filter (fun t => negb (todo_id t =? id)) (todos (browser w)) /\
     Db.todos (server r.2) = delete id (Db.todos (server w)) /\
     toasts (document (browser r.2)) = toasts (document (browser w))) /\
  (Db.todos (server w) !! id = None ->
     r.1 = false /\
     todos (browser r.2) = todos (browser w) /\
     server r.2 = server w /\
     toasts (document (browser r.2)) =
       (toasts (document (browser w)) ++ ["Failed to delete todo"])%list).
Proof.
  cbv zeta. rewrite deleteTodo_eq. split.
  - intros [s ->]. cbn [fst snd browser server]. rewrite renderTodos_todos.
    repeat split.
    unfold renderTodos. cbn [todos currentFilter document].
    destruct (length _ =? 0)%nat; destruct (0 <? length _)%nat; reflexivity.
  - intros ->. now repeat split.
Qed.

(** X24: submitting the form: an input that is empty after trimming sends
    nothing and changes nothing; an input of at most 500 characters after
    trimming is stored under the next identifier with the trimmed text, put
    at the front of the mirror with flag false, and the input field is
    cleared; a longer input is refused by the server, and then the mirror,
    the table and the input field stay as they were and a toast is shown. *)
Theorem handleAddTodo_outcome clk w :
  let input := todoInput_value (document (browser w)) in
  let id := auto_increment (server w) in
  (trim input = "" -> handleAddTodo clk w = Some w) /\
  (trim input <> "" -> (String.length (trim input) <= 500)%nat ->
     exists w',
       handleAddTodo clk w = Some w' /\
       todos (browser w') = Todo id (trim input) false (date_now clk) :: todos (browser w) /\
       todoInput_value (document (browser w')) = "" /\
       Db.todos (server w') =
         <[id := Stored (trim input) 0 (current_timestamp clk)]> (Db.todos (server w)) /\
       auto_increment (server w') = id + 1) /\
  (trim input <> "" -> (500 < String.length (trim input))%nat ->
     exists w',
       handleAddTodo clk w = Some w' /\
       todos (browser w') = todos (browser w) /\
       todoInput_value (document (browser w')) = input /\
       server w' = server w /\
       toasts (document (browser w')) =
         (toasts (document (browser w)) ++ ["Failed to create todo"])%list).
Proof.
  cbv zeta. unfold handleAddTodo. rewrite createTodo_eq, trim_idem.
  split; [|split].
  - intros E. now rewrite E.
  - intros He Hl. apply is_empty_false in He. apply fits_title_iff in Hl.
    rewrite He, Hl. cbn [orb negb]. eexists. split; [reflexivity|].
    unfold clear_input. cbn [browser server todos document todoInput_value
                             Db.todos auto_increment].
    now rewrite renderTodos_todos.
  - intros He Hl. apply is_empty_false in He. apply fits_title_false in Hl.
    rewrite He, Hl. cbn [orb negb]. eexists. split; [reflexivity|].
    now repeat split.
Qed.

(** X25: an update that the server does not answer with 200 makes the
    client show a toast and fetch the list again: afterwards the mirror is
    the list that list-all answers and agrees with the table, which has not
    changed. *)
Theorem updateTodo_failure_refetches id b w :
  status (put_todo id b (server w)).1 <> 200 ->
  exists w',
    updateTodo id b w = Some (false, w') /\
    server w' = server w /\
    todos (browser w') = listed (server w) /\
    toasts (document (browser w')) =
      (toasts (document (browser w)) ++ ["Failed to update todo"])%list /\
    in_sync w'.
Proof.
  intros H. eexists. split; [now apply updateTodo_failed|].
  cbn [browser server]. rewrite renderTodos_todos. cbn [todos].
  split; [reflexivity|]. split; [reflexivity|]. split.
  - unfold renderTodos. cbn [todos currentFilter document].
    destruct (length _ =? 0)%nat; destruct (0 <? length _)%nat; reflexivity.
  - apply fetchTodos_sync.
Qed.

Lemma updateTodo_failure_refetches_witness :
  exists w',
    updateTodo 7 (Body JUndefined (JBool true)) w0 = Some (false, w') /\
    server w' = server w0 /\
    todos (browser w') = listed (server w0) /\
    toasts (document (browser w')) =
      (toasts (document (browser w0)) ++ ["Failed to update todo"])%list /\
    in_sync w'.
Proof.
  apply (updateTodo_failure_refetches 7 (Body JUndefined (JBool true)) w0).
  vm_compute. discriminate.
Defined.

Lemma sync_lookup w id t :
  in_sync w ->
  List.find (fun t => todo_id t =? id) (todos (browser w)) = Some t ->
  exists s, Db.todos (server w) !! id = Some s /\
    todo_id t = id /\ todo_title t = title s /\ todo_completed t = Boolean (completed s).
Proof.
  intros [_ Hfind] Ht. specialize (Hfind id). rewrite Ht in Hfind.
  destruct (Db.todos (server w) !! id) as [s|]; [|discriminate].
  injection Hfind as H1 H2 H3. now exists s.
Qed.

Lemma handleToggle_step id w t :
  in_sync w ->
  List.find (fun t => todo_id t =? id) (todos (browser w)) = Some t ->
  exists w' s,
    handleToggle id w = Some w' /\
    server w' =
      (handle (PUT_todo id (Body JUndefined (JBool (negb (todo_completed t))))) (server w)).2 /\
    Db.todos (server w) !! id = Some s /\
    Db.todos (server w') =
      <[id := Stored (title s) (if todo_completed t then 0 else 1) (created_at s)]>
        (Db.todos (server w)) /\
    List.find (fun t => todo_id t =? id) (todos (browser w')) =
      Some (Todo id (todo_title t) (negb (todo_completed t)) (created_at s)) /\
    length (todos (browser w')) = length (todos (browser w)) /\
    in_sync w'.
Proof.
  intros Hsync Ht.
  destruct (sync_lookup _ _ _ Hsync Ht) as (s & Hs & Hid & Htitle & Hflag).
  pose proof (put_todo_outcome id (Body JUndefined (JBool (negb (todo_completed t))))
                (server w) s Hs) as E.
  cbv zeta in E. cbn [body_title body_completed defined] in E.
  unfold updated in E. cbn [body_title body_completed defined truthy title completed
                            created_at] in E.
  unfold handleToggle. rewrite Ht, (updateTodo_ok _ _ _ _ _ E).
  assert (Hb : Boolean (if negb (todo_completed t) then 1 else 0) = negb (todo_completed t))
    by now destruct (todo_completed t).
  assert (Hz : (if negb (todo_completed t) then 1 else 0) =
               (if todo_completed t then 0 else 1))
    by now destruct (todo_completed t).
  destruct (findIndex (fun t => todo_id t =? id) (todos (browser w))) as [i|] eqn:Hi;
    [|apply findIndex_None in Hi; congruence].
  exists (World (renderTodos
            (State (<[i := Todo id (title s)
                             (Boolean (if negb (todo_completed t) then 1 else 0))
                             (created_at s)]> (todos (browser w)))
               (currentFilter (browser w)) (document (browser w))))
            (Database (<[id := Stored (title s) (if negb (todo_completed t) then 1 else 0)
                                 (created_at s)]> (Db.todos (server w)))
               (auto_increment (server w)))), s.
  split; [reflexivity|].
  split; [cbn [handle server]; now rewrite E|].
  split; [exact Hs|].
  cbn [browser server Db.todos]. rewrite renderTodos_todos. cbn [todos].
  split; [now rewrite Hz|]. split.
  { rewrite (find_insert_hit _ _ _ _ Hi) by (apply Z.eqb_eq; reflexivity).
    now rewrite Hb, Htitle. }
  split; [apply length_insert|].
  pose proof (sync_update (todos (browser w)) (currentFilter (browser w))
                (document (browser w)) (server w) (currentFilter (browser w))
                (document (browser w)) id
                (Todo id (title s) (Boolean (if negb (todo_completed t) then 1 else 0))
                   (created_at s))
                (Stored (title s) (if negb (todo_completed t) then 1 else 0) (created_at s))
                (auto_increment (server w))) as Hupd.
  rewrite Hi in Hupd. unfold in_sync in *. cbn [browser server todos] in *.
  rewrite renderTodos_todos. cbn [todos]. apply Hupd; try reflexivity.
  - exact Hsync.
  - now exists s.
Qed.

(** X26: toggling an item of a mirror that agrees with the table flips its
    flag on both sides: the stored flag becomes 1 if the mirror's flag was
    false and 0 if it was true, the mirror's item becomes the stored item
    with the flipped flag, the mirror keeps its length, and mirror and table
    still agree. *)
Theorem handleToggle_flips id w t :
  in_sync w ->
  List.find (fun t => todo_id t =? id) (todos (browser w)) = Some t ->
  exists w' s,
    handleToggle id w = Some w' /\
    Db.todos (server w) !! id = Some s /\
    Db.todos (server w') =
      <[id := Stored (title s) (if todo_completed t then 0 else 1) (created_at s)]>
        (Db.todos (server w)) /\
    List.find (fun t => todo_id t =? id) (todos (browser w')) =
      Some (Todo id (todo_title t) (negb (todo_completed t)) (created_at s)) /\
    length (todos (browser w')) = length (todos (browser w)) /\
    in_sync w'.
Proof.
  intros Hsync Ht.
  destruct (handleToggle_step id w t Hsync Ht) as (w' & s & E & _ & H).
  now exists w', s.
Qed.

Lemma handleToggle_flips_witness :
  let w := World (State (listed db2) "all" page0) db2 in
  exists w' s,
    handleToggle 1 w = Some w' /\
    Db.todos (server w) !! 1 = Some s /\
    Db.todos (server w') =
      <[1 := Stored (title s) 1 (created_at s)]> (Db.todos (server w)) /\
    List.find (fun t => todo_id t =? 1) (todos (browser w')) =
      Some (Todo 1 "Buy milk" true (created_at s)) /\
    length (todos (browser w')) = length (todos (browser w)) /\
    in_sync w'.
Proof.
  apply (handleToggle_flips 1 (World (State (listed db2) "all" page0) db2)
           (Todo 1 "Buy milk" false 1700000000)).
  - apply sync_listed.
  - vm_compute. reflexivity.
Defined.

(** ** Clearing the completed items *)

Lemma filter_filter_andb {A} (f g : A -> bool) l :
  List.filter f (List.filter g l) = List.filter (fun x => g x && f x) l.
Proof.
  induction l as [|x l IH]; simpl; [reflexivity|].
  destruct (g x); simpl; [|exact IH]. destruct (f x); now rewrite IH.
Qed.

Lemma filter_all {A} (f : A -> bool) l :
  (forall x, In x l -> f x = true) -> List.filter f l = l.
Proof.
  induction l as [|x l IH]; simpl; intros H; [reflexivity|].
  rewrite (H x) by now left. f_equal. apply IH. intros y Hy. apply H. now right.
Qed.

Lemma deleteTodo_sync id w :
  in_sync w ->
  todos (browser (deleteTodo id w).2) =
    List.filter (fun t => negb (todo_id t =? id)) (todos (browser w)) /\
  Db.todos (server (deleteTodo id w).2) = delete id (Db.todos (server w)) /\
  in_sync (deleteTodo id w).2.
Proof.
  intros Hsync. rewrite deleteTodo_eq.
  destruct (Db.todos (server w) !! id) as [s|] eqn:Hs; cbn [snd browser server Db.todos].
  - rewrite renderTodos_todos. cbn [todos]. repeat split.
    + destruct Hsync as [Hnd _]. unfold in_sync. cbn [browser server].
      rewrite renderTodos_todos. now apply ids_filter_NoDup.
    + intros id'. cbn [browser server]. rewrite renderTodos_todos. cbn [todos].
      destruct w as [[l f d] db].
      apply (sync_delete l f d db f d id (auto_increment db) Hsync).
  - cbn [todos]. destruct Hsync as [Hnd Hfind].
    assert (Hno : forall x, In x (todos (browser w)) -> negb (todo_id x =? id) = true).
    { intros x Hx. destruct (todo_id x =? id) eqn:E; [|reflexivity]. exfalso.
      apply Z.eqb_eq in E. specialize (Hfind id). rewrite Hs in Hfind.
      destruct (List.find _ _) eqn:Hf; [discriminate|].
      apply find_id_None in Hf. apply Hf. apply list_elem_of_fmap.
      exists x. split; [now symmetry | now apply list_elem_of_In]. }
    rewrite (filter_all _ _ Hno), (delete_id _ _ Hs). now repeat split.
Qed.

Lemma clear_fold_sync (cs : list todo) w :
  in_sync w ->
  let w' := fold_left (fun w todo => (deleteTodo (todo_id todo) w).2) cs w in
  let kept_id := fun id => forallb (fun c => negb (id =? todo_id c)) cs in
  todos (browser w') = List.filter (fun t => kept_id (todo_id t)) (todos (browser w)) /\
  (forall id, Db.todos (server w') !! id =
     if kept_id id then Db.todos (server w) !! id else None) /\
  in_sync w'.
Proof.
  revert w. induction cs as [|c cs IH]; intros w Hsync; cbv zeta; simpl.
  - split; [|split; [reflexivity | exact Hsync]].
    symmetry. now apply filter_all.
  - destruct (deleteTodo_sync (todo_id c) w Hsync) as (Ht & Hdb & Hsync').
    destruct (IH _ Hsync') as (Ht' & Hdb' & Hsync''). cbv zeta in *.
    split; [|split; [|exact Hsync'']].
    + now rewrite Ht', Ht, filter_filter_andb.
    + intros id. rewrite Hdb', Hdb, lookup_delete.
      destruct (id =? todo_id c) eqn:E; simpl.
      * apply Z.eqb_eq in E. rewrite decide_True by congruence.
        now destruct (forallb _ cs).
      * apply Z.eqb_neq in E. rewrite decide_False by congruence. reflexivity.
Qed.

Lemma ids_NoDup_inj (l : list todo) x y :
  NoDup (todo_id <$> l) -> x ∈ l -> y ∈ l -> todo_id x = todo_id y -> x = y.
Proof.
  intros Hnd Hx Hy E.
  apply list_elem_of_lookup in Hx as [i Hi]. apply list_elem_of_lookup in Hy as [j Hj].
  assert (i = j).
  { eapply NoDup_lookup; [exact Hnd | |];
      rewrite list_lookup_fmap; [rewrite Hi | rewrite Hj]; simpl; [reflexivity|].
    now rewrite E. }
  subst j. congruence.
Qed.

Lemma kept_id_completed (l : list todo) t :
  NoDup (todo_id <$> l) -> In t l ->
  forallb (fun c => negb (todo_id t =? todo_id c))
    (List.filter (fun t => todo_completed t) l) = negb (todo_completed t).
Proof.
  intros Hnd Ht. destruct (todo_completed t) eqn:Hc; simpl.
  - apply not_true_is_false. intros H. rewrite forallb_forall in H.
    specialize (H t). rewrite Z.eqb_refl in H. simpl in H.
    assert (false = true); [|discriminate]. apply H. apply filter_In. now split.
  - apply forallb_forall. intros c Hin. apply filter_In in Hin as [Hin Hcc].
    destruct (todo_id t =? todo_id c) eqn:E; [|reflexivity]. exfalso.
    apply Z.eqb_eq in E.
    assert (t = c) by (apply (ids_NoDup_inj l); [exact Hnd | | | exact E];
                       now apply list_elem_of_In).
    subst c. congruence.
Qed.

(** X27: clearing the completed items of a mirror that agrees with the
    table deletes exactly those items on both sides: the mirror keeps its
    active items, in order, and nothing else; the table loses the rows whose
    flag is set and keeps every other row as it was; and mirror and table
    still agree. *)
Theorem handleClearCompleted_clears w :
  in_sync w ->
  let w' := handleClearCompleted w in
  todos (browser w') =
    List.filter (fun t => negb (todo_completed t)) (todos (browser w)) /\
  (forall id,
     Db.todos (server w') !! id =
     match Db.todos (server w) !! id with
     | Some s => if Boolean (completed s) then None else Some s
     | None => None
     end) /\
  in_sync w'.
Proof.
  intros Hsync. cbv zeta. unfold handleClearCompleted.
  destruct (clear_fold_sync
              (List.filter (fun t => todo_completed t) (todos (browser w))) w Hsync)
    as (Ht & Hdb & Hsync'). cbv zeta in *.
  split; [|split; [|exact Hsync']].
  - rewrite Ht. apply filter_ext_in. intros t Hin.
    apply kept_id_completed; [apply Hsync | exact Hin].
  - intros id. rewrite Hdb.
    destruct (Db.todos (server w) !! id) as [s|] eqn:Hs;
      [|now destruct (forallb _ _)].
    destruct Hsync as [Hnd Hfind]. specialize (Hfind id). rewrite Hs in Hfind.
    destruct (List.find _ (todos (browser w))) as [t|] eqn:Hf; [|discriminate].
    injection Hfind as H1 H2 H3.
    apply find_some in Hf as [Hin _].
    pose proof (kept_id_completed _ t Hnd Hin) as Hk. rewrite H1, H3 in Hk.
    rewrite Hk. now destruct (Boolean (completed s)).
Qed.

Lemma handleClearCompleted_clears_witness :
  let db := (handle (PUT_todo 1 (Body JUndefined (JBool true))) db2).2 in
  let w := World (State (listed db) "all" page0) db in
  let w' := handleClearCompleted w in
  todos (browser w') =
    List.filter (fun t => negb (todo_completed t)) (todos (browser w)) /\
  (forall id,
     Db.todos (server w') !! id =
     match Db.todos (server w) !! id with
     | Some s => if Boolean (completed s) then None else Some s
     | None => None
     end) /\
  in_sync w'.
Proof.
  apply (handleClearCompleted_clears
           (World (State (listed (handle (PUT_todo 1 (Body JUndefined (JBool true))) db2).2)
                     "all" page0)
                  (handle (PUT_todo 1 (Body JUndefined (JBool true))) db2).2)).
  apply sync_listed.
Defined.

(** ** Every user action keeps the mirror in step *)

Lemma deleteTodo_server id w :
  server (deleteTodo id w).2 = (handle (DELETE_todo id) (server w)).2.
Proof.
  rewrite deleteTodo_eq. cbn [handle]. rewrite delete_todo_eq.
  now destruct (Db.todos (server w) !! id).
Qed.

Lemma clear_fold_reachable (cs : list todo) w :
  reachable (server w) ->
  reachable (server (fold_left (fun w todo => (deleteTodo (todo_id todo) w).2) cs w)).
Proof.
  revert w. induction cs as [|c cs IH]; intros w Hw; simpl; [exact Hw|].
  apply IH. rewrite deleteTodo_server. now apply reachable_step.
Qed.

(** X28: as long as this client is the only writer, its mirror never goes
    stale: from a mirror that agrees with the table of a running server,
    every user action (submitting the form, choosing a filter, retrying,
    clearing the completed items, ticking a checkbox, pressing a delete
    button) ends in a state the model describes, in which mirror and table
    agree again. *)
Theorem dispatch_keeps_sync ev w :
  in_sync w -> reachable (server w) ->
  exists w', dispatch ev w = Some w' /\ in_sync w' /\ reachable (server w').
Proof.
  intros Hsync Hreach. destruct ev as [clk|f| | |id|id]; cbn [dispatch].
  - unfold handleAddTodo.
    destruct (is_empty (trim (todoInput_value (document (browser w))))) eqn:He;
      [exists w; split; [reflexivity|]; split; assumption|].
    rewrite createTodo_eq, trim_idem, He. cbn [orb].
    destruct (fits_title (trim (todoInput_value (document (browser w))))) eqn:Hf;
      cbn [negb]; eexists; (split; [reflexivity|]).
    + unfold clear_input, in_sync. cbn [browser server todos]. rewrite renderTodos_todos.
      cbn [todos]. split.
      * destruct w as [[l fl d] db].
        apply (sync_cons l fl d db fl d
                 (Todo (auto_increment db) (trim (todoInput_value d)) false (date_now clk))
                 (Stored (trim (todoInput_value d)) 0 (current_timestamp clk))
                 (auto_increment db + 1) Hsync);
          [|reflexivity].
        cbn [todo_id]. now apply ids_below_fresh, reachable_ids_below.
      * pose proof (reachable_step
                      (POST_todos clk
                         (Body (JString (trim (todoInput_value (document (browser w)))))
                            JUndefined))
                      (server w) Hreach) as Hstep.
        cbn [handle] in Hstep. rewrite post_todos_text, trim_idem, He, Hf in Hstep.
        exact Hstep.
    + split; [exact Hsync | exact Hreach].
  - eexists. split; [reflexivity|]. unfold setFilter, in_sync.
    cbn [browser server]. rewrite renderTodos_todos. cbn [todos].
    split; [exact Hsync | exact Hreach].
  - rewrite fetchTodos_eq. eexists. split; [reflexivity|].
    split; [apply fetchTodos_sync | exact Hreach].
  - eexists. split; [reflexivity|]. split.
    + unfold handleClearCompleted. now apply clear_fold_sync.
    + unfold handleClearCompleted. now apply clear_fold_reachable.
  - destruct (List.find (fun t => todo_id t =? id) (todos (browser w))) as [t|] eqn:Ht.
    + destruct (handleToggle_step id w t Hsync Ht)
        as (w' & s & E & Hsrv & _ & _ & _ & _ & Hsync').
      exists w'. split; [exact E|]. split; [exact Hsync'|].
      rewrite Hsrv. now apply reachable_step.
    + unfold handleToggle. rewrite Ht. exists w.
      split; [reflexivity|]; split; assumption.
  - eexists. split; [reflexivity|]. unfold handleDelete. split.
    + now apply deleteTodo_sync.
    + rewrite deleteTodo_server. now apply reachable_step.
Qed.

Lemma dispatch_keeps_sync_witness :
  let w := World (State (listed db2) "all" page0) db2 in
  exists w',
    dispatch (Submit (Clocks 1700000120 1700000120789)) w = Some w' /\
    in_sync w' /\ reachable (server w').
Proof.
  apply (dispatch_keeps_sync (Submit (Clocks 1700000120 1700000120789))
           (World (State (listed db2) "all" page0) db2)).
  - apply sync_listed.
  - apply reachable_step, reachable_step, reachable_init.
Defined.
